(** * T3x Updater: a shallow embedding of [t3xupdate.py]

    The firmware-image validator ([parse_update]) and the device session
    ([transfer], [enter_bootloader], [do_update]) of class [T3XUpdater],
    written as Rocq functions over an explicit world: the opened firmware
    file, the serial link (what the device answers to each write) and the
    log.  Python integers are [Z], [bytes] objects are lists of [byte]. *)

From Stdlib Require Import ZArith List Bool Lia.
From Stdlib.Strings Require Import Ascii String Byte HexString.
Import ListNotations.
Open Scope Z_scope.

(** ** Python [bytes] and the built-ins the program uses *)

Definition bytes := list byte.

(** A [b'...'] literal. *)
Definition lit (s : string) : bytes := list_byte_of_string s.

Definition len {A} (l : list A) : Z := Z.of_nat (List.length l).

Definition byte_val (x : byte) : Z := Z.of_N (Byte.to_N x).

Definition bytes_eq_dec : forall a b : bytes, {a = b} + {a <> b} :=
  list_eq_dec Byte.byte_eq_dec.

(** [a == b] on [bytes]. *)
Definition bytes_eqb (a b : bytes) : bool :=
  if bytes_eq_dec a b then true else false.

Module Py.

(** [int.from_bytes(bs, "big")]. *)
Definition int_from_bytes_big (bs : bytes) : Z :=
  fold_left (fun acc x => acc * 256 + byte_val x) bs 0.

(** [bs.rstrip(c)] for a one-byte argument: drop every trailing [c]. *)
Fixpoint rstrip (c : byte) (bs : bytes) : bytes :=
  match bs with
  | [] => []
  | x :: t =>
      match rstrip c t with
      | [] => if Byte.eqb x c then [] else [x]
      | r => x :: r
      end
  end.

(** [bs.split(sep)] for a one-byte separator: the fields between the
    separators, left to right; never an empty list. *)
Fixpoint split (sep : byte) (bs : bytes) : list bytes :=
  match bs with
  | [] => [[]]
  | x :: t =>
      if Byte.eqb x sep then [] :: split sep t
      else match split sep t with
           | [] => [[x]]
           | f :: fs => (x :: f) :: fs
           end
  end.

(** [bs[-n:]]: the last [n] elements (all of them when there are fewer). *)
Definition last_n {A} (n : nat) (l : list A) : list A :=
  skipn (List.length l - n) l.

(** [range(start, stop, step)] for a positive [step]. *)
Definition range (start stop step : Z) : list Z :=
  map (fun k => start + step * Z.of_nat k)
      (seq 0 (Z.to_nat ((stop - start + step - 1) / step))).

(** Truthiness of a value that is [None] or a [bytes] object. *)
Definition truthy (v : option bytes) : bool :=
  match v with
  | Some (_ :: _) => true
  | _ => false
  end.

(** [f'{n:08x}']: lower-case hexadecimal, sign first, zero-padded to a
    width of eight characters. *)
Definition hex_digits (n : Z) : string :=
  match n with
  | Z0 => "0"%string
  | Zpos p => HexString.Raw.of_pos p ""
  | Zneg p => HexString.Raw.of_pos p ""
  end.

Fixpoint zeros (n : nat) : string :=
  match n with
  | O => ""%string
  | S n' => String "0"%char (zeros n')
  end.

Definition format_08x (n : Z) : string :=
  let d := hex_digits n in
  let sign := if n <? 0 then "-"%string else ""%string in
  (sign ++ zeros (8 - String.length sign - String.length d) ++ d)%string.

(** Whether [bs.decode()] (UTF-8, strict) succeeds: the well-formed byte
    sequences of the Unicode standard; overlong forms, surrogates and
    code points above U+10FFFF are rejected. *)
Definition in_range (lo hi : Z) (x : byte) : bool :=
  (lo <=? byte_val x) && (byte_val x <=? hi).

Definition cont (x : byte) : bool := in_range 0x80 0xBF x.

Fixpoint utf8_valid (bs : bytes) : bool :=
  match bs with
  | [] => true
  | b0 :: t0 =>
      if in_range 0x00 0x7F b0 then utf8_valid t0
      else
        match t0 with
        | [] => false
        | b1 :: t1 =>
            if in_range 0xC2 0xDF b0 then cont b1 && utf8_valid t1
            else
              match t1 with
              | [] => false
              | b2 :: t2 =>
                  if in_range 0xE0 0xEF b0 then
                    (if in_range 0xE0 0xE0 b0 then in_range 0xA0 0xBF b1
                     else if in_range 0xED 0xED b0 then in_range 0x80 0x9F b1
                     else cont b1)
                    && cont b2 && utf8_valid t2
                  else
                    match t2 with
                    | [] => false
                    | b3 :: t3 =>
                        in_range 0xF0 0xF4 b0
                        && (if in_range 0xF0 0xF0 b0 then in_range 0x90 0xBF b1
                            else if in_range 0xF4 0xF4 b0 then in_range 0x80 0x8F b1
                            else cont b1)
                        && cont b2 && cont b3 && utf8_valid t3
                    end
              end
        end
  end.

End Py.

(** ** [crcmod]: the CRC function [mkCrcFun] builds

    [crcmod.mkCrcFun(0x18005, rev=True, initCrc=0xFFFF, xorOut=0x0000)] is the
    library's table-driven, bit-reversed 16-bit algorithm.  The functions
    below follow the library's pure-Python implementation ([_bitrev],
    [_bytecrc_r], [_mkTable_r], [_crc16r], [_mkCrcFun]). *)

Module Crcmod.

(** [_bitrev(x, n)]: the low [n] bits of [x] in reverse order. *)
Fixpoint bitrev (x : Z) (n : nat) : Z :=
  match n with
  | O => 0
  | S n' => Z.lor (Z.shiftl (Z.land x 1) (Z.of_nat n')) (bitrev (Z.shiftr x 1) n')
  end.

(** One turn of the loop of [_bytecrc_r]. *)
Definition shift_r (poly crc : Z) : Z :=
  if Z.testbit crc 0 then Z.lxor (Z.shiftr crc 1) poly else Z.shiftr crc 1.

(** [_bytecrc_r(crc, poly, n)]. *)
Definition bytecrc_r (crc poly : Z) (n : nat) : Z :=
  Z.land (Nat.iter 8 (shift_r poly) crc) (Z.shiftl 1 (Z.of_nat n) - 1).

(** [_mkTable_r(poly, n)]. *)
Definition mkTable_r (poly : Z) (n : nat) : list Z :=
  let mask := Z.shiftl 1 (Z.of_nat n) - 1 in
  let poly := bitrev (Z.land poly mask) n in
  map (fun i => bytecrc_r (Z.of_nat i) poly n) (seq 0 256).

(** [_crc16r(data, crc, table)]. *)
Definition crc16r (data : bytes) (crc : Z) (table : list Z) : Z :=
  fold_left
    (fun crc x =>
       Z.lxor (nth (Z.to_nat (Z.lxor (byte_val x) (Z.land crc 0xFF))) table 0)
              (Z.shiftr crc 8))
    data (Z.land crc 0xFFFF).

(** [_mkCrcFun(poly, 16, initCrc, True, xorOut)], applied to [data] with
    the default starting value. *)
Definition mkCrcFun16_rev (poly initCrc xorOut : Z) (data : bytes) : Z :=
  let table := mkTable_r poly 16 in
  let initCrc := Z.land initCrc 0xFFFF in
  let xorOut := Z.land xorOut 0xFFFF in
  if xorOut =? 0 then crc16r data initCrc table
  else Z.lxor xorOut (crc16r data (Z.lxor xorOut initCrc) table).

End Crcmod.

(** The CRC-16 of the specification, bit by bit: the register starts at
    [init]; every input byte is xor-ed into its low end and the register is
    shifted right eight times, the reflected polynomial being xor-ed in
    whenever a one is shifted out; [xorout] is xor-ed onto the result. *)
Module CrcSpec.

(** 0x8005 with its sixteen bits reversed. *)
Definition poly_8005_reflected : Z := 0xA001.

Definition step_bit (crc : Z) : Z :=
  if Z.odd crc then Z.lxor (Z.shiftr crc 1) poly_8005_reflected
  else Z.shiftr crc 1.

Definition step_byte (crc : Z) (x : byte) : Z :=
  Nat.iter 8 step_bit (Z.lxor crc (byte_val x)).

Definition crc16 (init xorout : Z) (data : bytes) : Z :=
  Z.lxor (fold_left step_byte data init) xorout.

End CrcSpec.

(** ** The world the program runs in

    [t3xupdate.py] talks to three things: the firmware file, the serial
    link and the logger.  The world below makes them explicit.  What the
    device does is an oracle: [replies] holds its reaction to each
    successive write (past its end the device stays silent and every read
    times out), [comports] what each successive port scan finds.  [print]
    output (the progress line) is not part of the model. *)

Inductive exn :=
| SerialException
| SystemExit (code : Z)
| IndexError
| UnicodeDecodeError.

Inductive outcome (A : Type) :=
| Return (a : A)
| Raise (e : exn).
Arguments Return {A} a.
Arguments Raise {A} e.

(** An entry of [list_ports.comports()]; [opens] tells whether
    [serial.Serial] succeeds on it. *)
Record comport := {
  device : string;
  serial_number : option string;
  opens : bool
}.

(** The device's reaction to one write: the byte the blocking [read(1)]
    yields within the timeout (none on a timeout) and the bytes [read_all()]
    then finds waiting, or the loss of the link ([SerialException]). *)
Inductive reply :=
| Rx (first : option byte) (rest : bytes)
| LinkLost.

Inductive event :=
| EvOpen (port : string)
| EvWrite (data : bytes)
| EvSleep (secs : Z).

Inductive level := DEBUG | INFO | WARNING | ERROR.

(** The log calls of the program, one constructor per call site, with the
    values an f-string formats into the message.  [MsgBadSize] and
    [MsgCouldNotEnter] carry none: their messages are plain string literals
    (no [f] prefix), so the braces are logged as written. *)
Inductive message :=
| MsgMultiple
| MsgNoDevice
| MsgTx (head : bytes) (more : bool)
| MsgRx (rx : bytes)
| MsgDetected
| MsgWrongFile
| MsgBadSize
| MsgChecksum (csum_file csum_calc : Z)
| MsgUpdate (fw_product fw_version : bytes) (file_size : Z)
| MsgEnterBootloader
| MsgBootDisconnect
| MsgNoResetAck
| MsgCouldNotEnter
| MsgProductMismatch (fw hw : bytes)
| MsgBLVersion (bl_version : bytes)
| MsgNoStartAck
| MsgUpdateFailed
| MsgDoneDisconnect
| MsgUpdateOk.

Record state := mkState {
  fdata : bytes;                   (* self.file: what the opened file holds *)
  fpos : nat;                      (* self.file: its position *)
  inbuf : option byte * bytes;     (* self.ser: input not read yet *)
  comports : list (list comport);  (* the port scans to come *)
  replies : list reply;            (* the device's reactions to come *)
  trace : list event;              (* what was done to the link, oldest first *)
  logged : list (level * message)  (* the log, oldest first *)
}.

Definition M (A : Type) : Type := state -> outcome A * state.

Definition ret {A} (a : A) : M A := fun s => (Return a, s).

Definition raise {A} (e : exn) : M A := fun s => (Raise e, s).

Definition bind {A B} (m : M A) (k : A -> M B) : M B :=
  fun s =>
    match m s with
    | (Return a, s') => k a s'
    | (Raise e, s') => (Raise e, s')
    end.

Notation "x <- m ;; k" := (bind m (fun x => k))
  (at level 61, m at next level, right associativity).
Notation "m ;; k" := (bind m (fun _ => k))
  (at level 61, right associativity).

(** [try: m  except SerialException: ...]: [None] stands for the handler's
    turn; any other exception goes on. *)
Definition try_serial {A} (m : M A) : M (option A) :=
  fun s =>
    match m s with
    | (Return a, s') => (Return (Some a), s')
    | (Raise SerialException, s') => (Return None, s')
    | (Raise e, s') => (Raise e, s')
    end.

(** [try: m  finally: fin]. *)
Definition try_finally {A} (m : M A) (fin : M unit) : M A :=
  fun s =>
    match m s with
    | (r, s') =>
        match fin s' with
        | (Return _, s'') => (r, s'')
        | (Raise e, s'') => (Raise e, s'')
        end
    end.

Definition emit (e : event) : M unit :=
  fun s => (Return tt,
            mkState (fdata s) (fpos s) (inbuf s) (comports s) (replies s)
                    (trace s ++ [e]) (logged s)).

Definition log (l : level) (m : message) : M unit :=
  fun s => (Return tt,
            mkState (fdata s) (fpos s) (inbuf s) (comports s) (replies s)
                    (trace s) (logged s ++ [(l, m)])).

(** [b.decode()], for its exception only. *)
Definition decode (bs : bytes) : M unit :=
  if Py.utf8_valid bs then ret tt else raise UnicodeDecodeError.

(** *** The file object *)

Definition file_open (content : bytes) : M unit :=
  fun s => (Return tt,
            mkState content 0 (inbuf s) (comports s) (replies s)
                    (trace s) (logged s)).

Definition file_seek (pos : nat) : M unit :=
  fun s => (Return tt,
            mkState (fdata s) pos (inbuf s) (comports s) (replies s)
                    (trace s) (logged s)).

(** [self.file.read(n)]: at most [n] bytes from the position on. *)
Definition file_read (n : nat) : M bytes :=
  fun s =>
    let data := firstn n (skipn (fpos s) (fdata s)) in
    (Return data,
     mkState (fdata s) (fpos s + List.length data) (inbuf s) (comports s)
             (replies s) (trace s) (logged s)).

(** [self.file.read()]: everything from the position on. *)
Definition file_read_all : M bytes :=
  fun s =>
    let data := skipn (fpos s) (fdata s) in
    (Return data,
     mkState (fdata s) (fpos s + List.length data) (inbuf s) (comports s)
             (replies s) (trace s) (logged s)).

(** *** The serial port *)

Definition list_ports_comports : M (list comport) :=
  fun s =>
    (Return (hd [] (comports s)),
     mkState (fdata s) (fpos s) (inbuf s) (tl (comports s)) (replies s)
             (trace s) (logged s)).

(** [serial.Serial(port, baudrate=115200, timeout=3)]. *)
Definition serial_Serial (port : comport) : M unit :=
  emit (EvOpen (device port)) ;;
  if opens port then
    fun s => (Return tt,
              mkState (fdata s) (fpos s) (None, []) (comports s) (replies s)
                      (trace s) (logged s))
  else raise SerialException.

Definition ser_write (data : bytes) : M unit :=
  emit (EvWrite data) ;;
  fun s =>
    match replies s with
    | [] =>
        (Return tt,
         mkState (fdata s) (fpos s) (None, []) (comports s) [] (trace s) (logged s))
    | Rx first rest :: rs =>
        (Return tt,
         mkState (fdata s) (fpos s) (first, rest) (comports s) rs (trace s) (logged s))
    | LinkLost :: rs =>
        (Raise SerialException,
         mkState (fdata s) (fpos s) (None, []) (comports s) rs (trace s) (logged s))
    end.

(** [self.ser.read(1)]: one byte, or nothing when the timeout expires. *)
Definition ser_read_1 : M bytes :=
  fun s =>
    match inbuf s with
    | (Some x, rest) =>
        (Return [x],
         mkState (fdata s) (fpos s) (None, rest) (comports s) (replies s)
                 (trace s) (logged s))
    | (None, _) => (Return [], s)
    end.

(** [self.ser.read_all()]: whatever is waiting, without blocking. *)
Definition ser_read_all : M bytes :=
  fun s =>
    (Return (match fst (inbuf s) with Some x => [x] | None => [] end ++ snd (inbuf s)),
     mkState (fdata s) (fpos s) (None, []) (comports s) (replies s)
             (trace s) (logged s)).

Definition time_sleep (secs : Z) : M unit := emit (EvSleep secs).

(** ** class [T3XUpdater] *)

Module T3XUpdater.

(** [p.serial_number and p.serial_number.startswith("JCID_T3")]. *)
Definition is_t3x (p : comport) : bool :=
  match serial_number p with
  | None => false
  | Some sn => negb (String.eqb sn "") && String.prefix "JCID_T3" sn
  end.

Definition get_port : M comport :=
  found <- list_ports_comports ;;
  let ports := filter is_t3x found in
  if 1 <? len ports then
    log ERROR MsgMultiple ;; raise (SystemExit 1)
  else
    match ports with
    | [] => log ERROR MsgNoDevice ;; raise (SystemExit 1)
    | p :: _ => ret p
    end.

Definition connect : M unit :=
  port <- get_port ;;
  serial_Serial port.

Definition transfer (data : bytes) : M bytes :=
  log DEBUG (MsgTx (firstn 32 data) (32 <? len data)) ;;
  ser_write data ;;
  (* first read 1 byte to use timeout mechanism *)
  rx1 <- ser_read_1 ;;
  rx2 <- ser_read_all ;;
  let rx := rx1 ++ Py.rstrip x00 rx2 in
  log DEBUG (MsgRx rx) ;;
  ret rx.

Definition get_identity : M bytes := transfer (lit "JC_identity").

Definition get_raw_version : M bytes := transfer (lit "JC_version").

Definition get_version : M bytes :=
  raw <- get_raw_version ;;
  ret (Py.last_n 4 raw).

Definition get_product : M bytes :=
  raw <- get_raw_version ;;
  match nth_error (Py.split "_"%byte raw) 2 with
  | Some field => ret field
  | None => raise IndexError
  end.

(** [crcmod.mkCrcFun(0x18005, rev=True, initCrc=0xFFFF, xorOut=0x0000)]. *)
Definition crc16fn : bytes -> Z := Crcmod.mkCrcFun16_rev 0x18005 0xFFFF 0x0000.

(** [file] stands for what the named file holds; [os.stat(file).st_size]
    is its length. *)
Definition parse_update (file : bytes) : M (option bytes * option bytes * Z) :=
  file_open file ;;
  magic <- file_read 4 ;;
  if bytes_eqb magic (lit "JCID") then
    log DEBUG MsgDetected ;;
    let file_size := len file in
    file_seek 0x60 ;;
    size_field <- file_read 4 ;;
    let fw_size := Py.int_from_bytes_big size_field + 0x100 in
    if negb (file_size =? fw_size) then
      log ERROR MsgBadSize ;;
      ret (None, None, 0)
    else
      file_seek 0x64 ;;
      csum_field <- file_read 2 ;;
      let csum_file := Py.int_from_bytes_big csum_field in
      file_seek 0x100 ;;
      payload <- file_read_all ;;
      let csum_calc := crc16fn payload in
      if negb (csum_calc =? csum_file) then
        log ERROR (MsgChecksum csum_file csum_calc) ;;
        ret (None, None, 0)
      else
        file_seek 0x20 ;;
        product_field <- file_read 16 ;;
        let fw_product :=
          last (Py.split "_"%byte (Py.rstrip xff product_field)) [] in
        file_seek 0x40 ;;
        fw_version <- file_read 4 ;;
        fw_version <-
          (if bytes_eqb fw_version (lit "vers") then
             file_seek 0x47 ;; file_read 4
           else ret fw_version) ;;
        decode fw_product ;;
        decode fw_version ;;
        log INFO (MsgUpdate fw_product fw_version file_size) ;;
        ret (Some fw_product, Some fw_version, file_size)
  else
    log ERROR MsgWrongFile ;;
    ret (None, None, 0).

Definition enter_bootloader : M bool :=
  identity <- get_identity ;;
  if bytes_eqb identity (lit "JC_boot") then ret true
  else
    returned <-
      (if bytes_eqb identity (lit "JC_User") then
         log INFO MsgEnterBootloader ;;
         try_finally
           (ack <- try_serial (raw <- get_raw_version ;; transfer raw) ;;
            match ack with
            | None => log WARNING MsgBootDisconnect
            | Some ack =>
                if negb (bytes_eqb ack (lit "JC_reset"))
                then log WARNING MsgNoResetAck
                else ret tt
            end)
           (time_sleep 3 ;; connect) ;;
         identity <- get_identity ;;
         identity' <- get_identity ;;
         if bytes_eqb identity' (lit "JC_boot") then ret (Some true)
         else ret None
       else ret None) ;;
    match returned with
    | Some v => ret v
    | None => log ERROR MsgCouldNotEnter ;; ret false
    end.

(** The [for offset in range(0, fw_size, 2048)] loop of [do_update], over
    the offsets still to come.  [Some v] stands for [return v] from inside
    the loop, [None] for leaving the loop (at its end or by [break]). *)
Fixpoint do_update_loop (fw_size : Z) (offsets : list Z) : M (option bool) :=
  match offsets with
  | [] => ret None
  | offset :: offsets' =>
      data <- file_read 2048 ;;
      match data with
      | [] => ret None
      | _ :: _ =>
          ack <- try_serial (transfer data) ;;
          match ack with
          | Some ack =>
              if negb (bytes_eqb ack (lit "ack_jcxx")) then
                log ERROR MsgUpdateFailed ;; ret (Some false)
              else do_update_loop fw_size offsets'
          | None =>
              if offset =? fw_size - 256 then
                log WARNING MsgDoneDisconnect ;;
                do_update_loop fw_size offsets'
              else
                log ERROR MsgUpdateFailed ;; ret (Some false)
          end
      end
  end.

(** [do_update] from [print("Send update...")] to its end: the upload
    loop, then the wait, the reconnection and the check of the device's
    identity and version. *)
Definition do_update_send (fw_version : bytes) (fw_size : Z) : M bool :=
  file_seek 0 ;;
  returned <- do_update_loop fw_size (Py.range 0 fw_size 2048) ;;
  match returned with
  | Some v => ret v
  | None =>
      time_sleep 3 ;;
      connect ;;
      identity <- get_identity ;;
      version <- get_version ;;
      if negb (bytes_eqb identity (lit "JC_User")
               && bytes_eqb version fw_version) then
        log ERROR MsgUpdateFailed ;;
        ret false
      else
        log INFO MsgUpdateOk ;;
        ret true
  end.

Definition do_update (file : bytes) : M bool :=
  parsed <- parse_update file ;;
  let '(fw_product, fw_version, fw_size) := parsed in
  if negb (Py.truthy fw_product && Py.truthy fw_version) then ret false
  else
    let fw_product := match fw_product with Some p => p | None => [] end in
    let fw_version := match fw_version with Some v => v | None => [] end in
    connect ;;
    product <- get_product ;;
    if negb (bytes_eqb fw_product product) then
      decode fw_product ;;
      decode product ;;
      log ERROR (MsgProductMismatch fw_product product) ;;
      ret false
    else
      raw_version <- get_raw_version ;;
      identity <- get_identity ;;
      entered <- enter_bootloader ;;
      if negb entered then ret false
      else
        bl_version <- get_version ;;
        decode bl_version ;;
        log INFO (MsgBLVersion bl_version) ;;
        bl_raw_version <- get_raw_version ;;
        decode (skipn 8 bl_raw_version) ;;
        let update_str :=
          lit ("0x" ++ Py.format_08x fw_size) ++ skipn 8 bl_raw_version in
        ack <- transfer update_str ;;
        if negb (bytes_eqb ack (lit "update_jcxx")) then
          log ERROR MsgNoStartAck ;;
          ret false
        else do_update_send fw_version fw_size.

End T3XUpdater.

(** [main], once the command line is parsed and logging is set up: [file]
    stands for what [args.file] names. *)
Definition main (file : bytes) : M unit :=
  ok <- T3XUpdater.do_update file ;;
  if negb ok then raise (SystemExit 1) else ret tt.

(** ** Sample images and devices

    Concrete worlds on which the statements below are tried. *)

Module Sample.

(** [n] as [width] big-endian bytes. *)
Fixpoint to_bytes_big (width : nat) (n : Z) : bytes :=
  match width with
  | O => []
  | S w =>
      to_bytes_big w (n / 256)
        ++ [match Byte.of_N (Z.to_N (n mod 256)) with Some x => x | None => x00 end]
  end.

Definition pad (fill : byte) (width : nat) (bs : bytes) : bytes :=
  bs ++ repeat fill (width - List.length bs).

(** A firmware file: magic, product field, the twelve bytes from 0x40 on
    (version field and relocated version), size and checksum fields as
    given, then the payload. *)
Definition image_with (product version_area : bytes) (size_field csum_field : Z)
           (payload : bytes) : bytes :=
  pad x00 0x20 (lit "JCID")
    ++ pad x00 0x20 (pad xff 16 product)
    ++ pad x00 0x20 version_area
    ++ to_bytes_big 4 size_field
    ++ to_bytes_big 2 csum_field
    ++ repeat x00 (0x100 - 0x66)
    ++ payload.

(** The same with the size and checksum fields the payload calls for. *)
Definition image (product version_area payload : bytes) : bytes :=
  image_with product version_area (len payload)
             (T3XUpdater.crc16fn payload) payload.

Definition payload_4096 : bytes := repeat x5a 4096.

Definition image_t3s : bytes := image (lit "JCID_T3S") (lit "1234") payload_4096.

(** A full answer: first byte, the rest, and null padding. *)
Definition answer (token : bytes) (padding : nat) : reply :=
  match token with
  | [] => Rx None []
  | x :: t => Rx (Some x) (t ++ repeat x00 padding)
  end.

Definition t3x_port : comport :=
  {| device := "/dev/ttyACM0"; serial_number := Some "JCID_T3S_0001"%string;
     opens := true |}.

Definition world (scans : list (list comport)) (script : list reply) : state :=
  mkState [] 0 (None, []) scans script [] [].

(** A device in user mode that acknowledges the reset, and its answers to
    the two identity queries sent after the reconnection. *)
Definition user_mode_script (first_requery second_requery : reply) : list reply :=
  [answer (lit "JC_User") 4;
   answer (lit "JC_V1_T3S_0999") 4;
   answer (lit "JC_reset") 4;
   first_requery;
   second_requery].

(** The world at the start of the upload of [image_t3s]. *)
Definition uploading (script : list reply) : state :=
  mkState image_t3s 0 (None, []) [] script [] [].

Definition ack : reply := answer (lit "ack_jcxx") 4.

(** A device that takes [image_t3s]: user mode, reset into the bootloader,
    start acknowledged, two chunks acknowledged, the link lost on the last
    one, then user mode again with the new version. *)
Definition update_script : list reply :=
  [answer (lit "JC_V1_T3S_0999") 4;
   answer (lit "JC_V1_T3S_0999") 4;
   answer (lit "JC_User") 4;
   answer (lit "JC_User") 4;
   answer (lit "JC_V1_T3S_0999") 4;
   answer (lit "JC_reset") 4;
   answer (lit "JC_boot") 4;
   answer (lit "JC_boot") 4;
   answer (lit "JC_BL_T3S_0001") 4;
   answer (lit "JC_BL_T3S_0001") 4;
   answer (lit "update_jcxx") 4;
   ack; ack; LinkLost;
   answer (lit "JC_User") 4;
   answer (lit "JC_V1_T3S_1234") 4].

End Sample.

(** ** Vocabulary of the statements *)

(** [bs[off : off + n]]. *)
Definition slice (bs : bytes) (off n : nat) : bytes := firstn n (skipn off bs).

(** [u] is an [n]-bit value. *)
Definition fits (n u : Z) : Prop := 0 <= u < 2 ^ n.

(** The fields of a firmware file, as [parse_update] reads them. *)
Definition magic_ok (file : bytes) : Prop := slice file 0 4 = lit "JCID".

Definition declared_size (file : bytes) : Z :=
  Py.int_from_bytes_big (slice file 0x60 4) + 0x100.

Definition stored_checksum (file : bytes) : Z :=
  Py.int_from_bytes_big (slice file 0x64 2).

Definition payload (file : bytes) : bytes := skipn 0x100 file.

Definition product_of (file : bytes) : bytes :=
  last (Py.split "_"%byte (Py.rstrip xff (slice file 0x20 16))) [].

Definition version_of (file : bytes) : bytes :=
  if bytes_eqb (slice file 0x40 4) (lit "vers") then slice file 0x47 4
  else slice file 0x40 4.

(** The upload: the offset of the [k]-th turn of the loop, the slice of the
    file that starts there, and how many turns [range(0, size, 2048)] has. *)
Definition offset_of (k : nat) : Z := 2048 * Z.of_nat k.

Definition chunk (file : bytes) (k : nat) : bytes := slice file (2048 * k) 2048.

Definition chunk_count (size : Z) : nat := Z.to_nat ((size + 2047) / 2048).

Definition chunks (file : bytes) : list bytes :=
  map (chunk file) (seq 0 (chunk_count (len file))).

(** The bytes of a reply in the order they arrived. *)
Definition received (first : option byte) (rest : bytes) : bytes :=
  match first with Some x => x :: rest | None => rest end.

(** What [transfer] makes of a reply. *)
Definition cleaned (first : option byte) (rest : bytes) : bytes :=
  received first (Py.rstrip x00 rest).

(** The world once the loop has read a chunk from the file. *)
Definition advanced (s : state) : state :=
  mkState (fdata s) (fpos s + List.length (slice (fdata s) (fpos s) 2048))
          (inbuf s) (comports s) (replies s) (trace s) (logged s).

(** A reply that [transfer] turns into the acknowledgment of a chunk. *)
Definition is_ack (r : reply) : Prop :=
  match r with
  | Rx first rest => cleaned first rest = lit "ack_jcxx"
  | LinkLost => False
  end.

(** The world once [transfer data] has consumed a reply: the input is
    drained, the write is on the trace, the exchange is in the debug log. *)
Definition exchanged (data : bytes) (rx : option bytes) (rs : list reply)
           (s : state) : state :=
  mkState (fdata s) (fpos s) (None, []) (comports s) rs
          (trace s ++ [EvWrite data])
          (logged s ++ (DEBUG, MsgTx (firstn 32 data) (32 <? len data))
                    :: match rx with
                       | Some rx => [(DEBUG, MsgRx rx)]
                       | None => []
                       end).

(** [m] leaves the opened file and its position alone and only adds to the
    trace of the link. *)
Definition frame {A} (m : M A) : Prop :=
  forall s r s',
    m s = (r, s') ->
    fdata s' = fdata s /\ fpos s' = fpos s
    /\ exists events, trace s' = trace s ++ events.

(** The world once [serial.Serial] has opened [port], [later] being the
    port scans still to come. *)
Definition opened (port : comport) (later : list (list comport)) (s : state)
  : state :=
  mkState (fdata s) (fpos s) (None, []) later (replies s)
          (trace s ++ [EvOpen (device port)]) (logged s).

(** The ways the reset exchange of [enter_bootloader] can go, with what it
    writes: the link is lost on the version query, or the version is
    answered and sent back as the reset command, whatever comes of that
    (the acknowledgment, another answer, or the loss of the link). *)
Inductive reset_exchange : list reply -> list event -> Prop :=
| reset_lost_at_once :
    reset_exchange [LinkLost] [EvWrite (lit "JC_version")]
| reset_sent first rest outcome :
    reset_exchange [Rx first rest; outcome]
                   [EvWrite (lit "JC_version"); EvWrite (cleaned first rest)].

(** [sep.join(fields)], the inverse of [split]. *)
Fixpoint join (sep : byte) (fields : list bytes) : bytes :=
  match fields with
  | [] => []
  | f :: fs =>
      match fs with
      | [] => f
      | _ :: _ => f ++ sep :: join sep fs
      end
  end.

(** How many times [c] occurs in [bs]. *)
Definition count (c : byte) (bs : bytes) : nat := count_occ Byte.byte_eq_dec bs c.

(** The number a string of lower-case hexadecimal digits writes, most
    significant digit first; no number when it is empty or holds any other
    byte (an upper-case letter, a sign, a blank). *)
Definition hex_digit_value (x : byte) : option Z :=
  let v := byte_val x in
  if (0x30 <=? v) && (v <=? 0x39) then Some (v - 0x30)
  else if (0x61 <=? v) && (v <=? 0x66) then Some (v - 0x61 + 10)
  else None.

Fixpoint hex_value_from (acc : Z) (digits : bytes) : option Z :=
  match digits with
  | [] => Some acc
  | d :: digits' =>
      match hex_digit_value d with
      | Some v => hex_value_from (16 * acc + v) digits'
      | None => None
      end
  end.

Definition hex_value (digits : bytes) : option Z :=
  match digits with
  | [] => None
  | _ :: _ => hex_value_from 0 digits
  end.

(** What a call of [enter_bootloader] that returns [True] does to the
    link.  A device already in its bootloader gets the identity query
    alone.  A device in user mode gets the identity query, the version
    query, its answer sent back as the reset command (unless the link was
    lost on the version query), then the wait, the reconnection and the two
    identity queries. *)
Inductive bootloader_entry : list event -> Prop :=
| entry_already :
    bootloader_entry [EvWrite (lit "JC_identity")]
| entry_reset_lost port :
    bootloader_entry
      [EvWrite (lit "JC_identity"); EvWrite (lit "JC_version");
       EvSleep 3; EvOpen port;
       EvWrite (lit "JC_identity"); EvWrite (lit "JC_identity")]
| entry_reset_sent raw port :
    bootloader_entry
      [EvWrite (lit "JC_identity"); EvWrite (lit "JC_version"); EvWrite raw;
       EvSleep 3; EvOpen port;
       EvWrite (lit "JC_identity"); EvWrite (lit "JC_identity")].

Example hex_value_ex :
  hex_value (lit "00001100") = Some 0x1100
  /\ hex_value (lit "00ABCDEF") = None
  /\ hex_value (lit "00zz12") = None
  /\ hex_value (lit "") = None.
Proof. vm_compute. repeat split; reflexivity. Qed.

Example crc_check_value :
  Crcmod.mkCrcFun16_rev 0x18005 0xFFFF 0 (lit "123456789") = 0x4B37.
Proof. vm_compute. reflexivity. Qed.

Example crc_spec_check_value :
  CrcSpec.crc16 0xFFFF 0 (lit "123456789") = 0x4B37.
Proof. vm_compute. reflexivity. Qed.

Example split_ex :
  Py.split "_"%byte (lit "JC_T3S_V1") = [lit "JC"; lit "T3S"; lit "V1"].
Proof. vm_compute. reflexivity. Qed.

Example fmt_ex : Py.format_08x 0x1100 = "00001100"%string.
Proof. vm_compute. reflexivity. Qed.

Example range_ex : Py.range 0 4352 2048 = [0; 2048; 4096].
Proof. vm_compute. reflexivity. Qed.

(** ** [transfer] *)

Section Transfer.

Import T3XUpdater.

Variables (data : bytes) (s : state) (rs : list reply).

Lemma transfer_Rx first rest :
  replies s = Rx first rest :: rs ->
  transfer data s
  = (Return (cleaned first rest),
     exchanged data (Some (cleaned first rest)) rs s).
Proof.
  intros H. unfold transfer, bind, log, ser_write, emit, ser_read_1,
    ser_read_all, ret, cleaned, received, exchanged. simpl. rewrite H.
  destruct first; simpl; rewrite <- app_assoc; reflexivity.
Qed.

Lemma transfer_LinkLost :
  replies s = LinkLost :: rs ->
  transfer data s = (Raise SerialException, exchanged data None rs s).
Proof.
  intros H. unfold transfer, bind, log, ser_write, emit, exchanged.
  simpl. rewrite H. reflexivity.
Qed.

Lemma transfer_silence :
  replies s = [] ->
  transfer data s = (Return [], exchanged data (Some []) [] s).
Proof.
  intros H. unfold transfer, bind, log, ser_write, emit, ser_read_1,
    ser_read_all, ret, exchanged. simpl. rewrite H. simpl.
  rewrite <- app_assoc. reflexivity.
Qed.

End Transfer.

Lemma transfer_frame data s r s1 :
  T3XUpdater.transfer data s = (r, s1) ->
  trace s1 = trace s ++ [EvWrite data]
  /\ comports s1 = comports s
  /\ replies s1 = tl (replies s)
  /\ fdata s1 = fdata s /\ fpos s1 = fpos s.
Proof.
  intros H. destruct (replies s) as [|[first rest|] rs] eqn:E.
  - rewrite (transfer_silence _ _ E) in H. inversion H; subst. simpl. auto.
  - rewrite (transfer_Rx _ _ _ _ _ E) in H. inversion H; subst. simpl. auto.
  - rewrite (transfer_LinkLost _ _ _ E) in H. inversion H; subst. simpl. auto.
Qed.

(** *** Trailing null bytes *)

Lemma bytes_eqb_eq a b : bytes_eqb a b = true <-> a = b.
Proof.
  unfold bytes_eqb. destruct (bytes_eq_dec a b); split; congruence.
Qed.

Lemma bytes_eqb_neq a b : bytes_eqb a b = false <-> a <> b.
Proof.
  unfold bytes_eqb. destruct (bytes_eq_dec a b); split; congruence.
Qed.

Lemma byte_eqb_refl x : Byte.eqb x x = true.
Proof. apply Byte.byte_dec_lb. reflexivity. Qed.

Lemma rstrip_repeat c n : Py.rstrip c (repeat c n) = [].
Proof.
  induction n as [|n IH]; simpl; [reflexivity|].
  rewrite IH, byte_eqb_refl. reflexivity.
Qed.

Lemma rstrip_app_repeat c l n : Py.rstrip c (l ++ repeat c n) = Py.rstrip c l.
Proof.
  induction l as [|x l IH]; simpl.
  - apply rstrip_repeat.
  - rewrite IH. reflexivity.
Qed.

(** A string that does not end in [c] is left as it is. *)
Lemma rstrip_no_trailing c l : l <> [] -> last l c <> c -> Py.rstrip c l = l.
Proof.
  induction l as [|x l IH]; intros Hne Hlast; [congruence|].
  destruct l as [|y l].
  - simpl in *. destruct (Byte.eqb x c) eqn:E; [|reflexivity].
    apply Byte.byte_dec_bl in E. congruence.
  - assert (IH' : Py.rstrip c (y :: l) = y :: l) by (apply IH; [discriminate|exact Hlast]).
    change (Py.rstrip c (x :: y :: l)) with
      (match Py.rstrip c (y :: l) with
       | [] => if Byte.eqb x c then [] else [x]
       | r => x :: r
       end).
    rewrite IH'. reflexivity.
Qed.

Lemma rstrip_cons_nonempty c x l :
  Py.rstrip c (x :: l) <> [] -> Py.rstrip c (x :: l) = x :: Py.rstrip c l.
Proof.
  simpl. destruct (Py.rstrip c l); [|reflexivity].
  destruct (Byte.eqb x c); [congruence|reflexivity].
Qed.

Lemma rstrip_cons_empty c x l :
  Py.rstrip c (x :: l) = [] -> x = c /\ Py.rstrip c l = [].
Proof.
  simpl. destruct (Py.rstrip c l); [|discriminate].
  destruct (Byte.eqb x c) eqn:E; [|discriminate].
  intros _. split; [apply Byte.byte_dec_bl; exact E|reflexivity].
Qed.

(** C7, as stated, fails: a reply made of one null byte comes back as that
    null byte, although stripping the padding of the reply leaves nothing. *)
Lemma transfer_keeps_leading_null_cex :
  ~ (forall data s first rest rs,
        replies s = Rx first rest :: rs ->
        fst (T3XUpdater.transfer data s)
        = Return (Py.rstrip x00 (received first rest))).
Proof.
  intros H.
  specialize (H (lit "JC_identity") (Sample.world [] [Rx (Some x00) []])
                (Some x00) [] [] eq_refl).
  vm_compute in H. discriminate H.
Qed.

(** C7 (amended): [transfer] returns the first byte of the reply as it came,
    followed by the rest of the reply without its trailing null bytes.  That
    is the reply without its null padding whenever the reply holds a byte
    that is not null; a reply of null bytes only, whose first byte arrived in
    time, comes back as one null byte.  So a token that does not end in a
    null byte, followed by any number of null bytes, comes back as the bare
    token, a one-byte token included. *)
Theorem transfer_strips_padding data s first rest rs :
  replies s = Rx first rest :: rs ->
  exists s',
    T3XUpdater.transfer data s = (Return (received first (Py.rstrip x00 rest)), s')
    /\ (Py.rstrip x00 (received first rest) <> [] ->
        received first (Py.rstrip x00 rest) = Py.rstrip x00 (received first rest))
    /\ (Py.rstrip x00 (received first rest) = [] -> first <> None ->
        received first (Py.rstrip x00 rest) = [x00])
    /\ (forall token n,
          token <> [] -> last token x00 <> x00 ->
          received first rest = token ++ repeat x00 n ->
          received first (Py.rstrip x00 rest) = token).
Proof.
  intros H. eexists. split; [apply (transfer_Rx _ _ _ _ _ H)|].
  assert (Hne : Py.rstrip x00 (received first rest) <> [] ->
                received first (Py.rstrip x00 rest)
                = Py.rstrip x00 (received first rest)).
  { destruct first as [x|]; simpl; [|reflexivity].
    intros Hne. symmetry. apply (rstrip_cons_nonempty _ _ _ Hne). }
  split; [exact Hne|]. split.
  - destruct first as [x|]; [|congruence]. intros Hnil _.
    apply rstrip_cons_empty in Hnil. destruct Hnil as [-> Hrest].
    simpl. rewrite Hrest. reflexivity.
  - intros token n Htok Hlast Hrecv.
    assert (Hstrip : Py.rstrip x00 (received first rest) = token).
    { rewrite Hrecv, rstrip_app_repeat. apply rstrip_no_trailing; assumption. }
    rewrite Hne; [exact Hstrip|]. rewrite Hstrip. exact Htok.
Qed.

Lemma transfer_strips_padding_witness :
  exists s',
    T3XUpdater.transfer (lit "JC_identity")
      (Sample.world [] [Sample.answer (lit "JC_boot") 9]) = (Return (lit "JC_boot"), s').
Proof.
  destruct (transfer_strips_padding (lit "JC_identity")
              (Sample.world [] [Sample.answer (lit "JC_boot") 9])
              (Some "J"%byte) (lit "C_boot" ++ repeat x00 9) [] eq_refl)
    as (s' & Hrun & _ & _ & Htoken).
  exists s'. rewrite Hrun.
  rewrite (Htoken (lit "JC_boot") 9%nat);
    [reflexivity | discriminate | vm_compute; discriminate | reflexivity].
Defined.

(** C6, as stated, fails: when the first read times out [transfer] raises
    nothing. *)
Lemma transfer_timeout_no_error_cex :
  ~ (forall data s rest rs,
        replies s = Rx None rest :: rs ->
        exists e s', T3XUpdater.transfer data s = (Raise e, s')).
Proof.
  intros H.
  destruct (H (lit "JC_identity") (Sample.world [] [Rx None []]) [] [] eq_refl)
    as (e & s' & Hrun).
  vm_compute in Hrun. discriminate Hrun.
Qed.

(** C6 (amended): when no byte arrives within the timeout of the first read,
    [transfer] raises no error: it returns what [read_all] then finds, null
    padding stripped, which is the empty string when nothing arrived at all.
    The empty string is returned in no other case: a reply whose first byte
    arrived in time gives a non-empty result.  Only the loss of the link
    surfaces as an exception ([SerialException]). *)
Theorem transfer_timeout_returns data s rs :
  (forall rest, replies s = Rx None rest :: rs ->
     exists s', T3XUpdater.transfer data s = (Return (Py.rstrip x00 rest), s'))
  /\ (replies s = Rx None [] :: rs ->
      exists s', T3XUpdater.transfer data s = (Return [], s'))
  /\ (forall x rest, replies s = Rx (Some x) rest :: rs ->
      exists rx s', T3XUpdater.transfer data s = (Return rx, s') /\ rx <> [])
  /\ (replies s = LinkLost :: rs ->
      exists s', T3XUpdater.transfer data s = (Raise SerialException, s')).
Proof.
  repeat split.
  - intros rest H. eexists. apply (transfer_Rx _ _ _ _ _ H).
  - intros H. eexists. apply (transfer_Rx _ _ _ _ _ H).
  - intros x rest H. do 2 eexists. split; [apply (transfer_Rx _ _ _ _ _ H)|].
    discriminate.
  - intros H. eexists. apply (transfer_LinkLost _ _ _ H).
Qed.

Lemma transfer_timeout_returns_witness :
  exists s',
    T3XUpdater.transfer (lit "JC_version") (Sample.world [] [Rx None []])
    = (Return [], s').
Proof.
  apply (transfer_timeout_returns (lit "JC_version")
           (Sample.world [] [Rx None []]) []).
  reflexivity.
Defined.

(** ** [enter_bootloader] *)

(** C5: when the identity query is answered [JC_boot], [enter_bootloader]
    returns [True] at once: the world is left as the query left it, so the
    one write is the query itself; no reset command is sent, no wait made,
    no port scanned or opened. *)
Theorem enter_bootloader_already_boot s s1 :
  T3XUpdater.get_identity s = (Return (lit "JC_boot"), s1) ->
  T3XUpdater.enter_bootloader s = (Return true, s1)
  /\ trace s1 = trace s ++ [EvWrite (lit "JC_identity")]
  /\ comports s1 = comports s.
Proof.
  intros H. split.
  - unfold T3XUpdater.enter_bootloader, bind. rewrite H. reflexivity.
  - apply transfer_frame in H. tauto.
Qed.

Lemma enter_bootloader_already_boot_witness :
  exists s1,
    T3XUpdater.enter_bootloader
      (Sample.world [[Sample.t3x_port]] [Sample.answer (lit "JC_boot") 5])
    = (Return true, s1)
    /\ trace s1 = [EvWrite (lit "JC_identity")]
    /\ comports s1 = [[Sample.t3x_port]].
Proof.
  eexists.
  apply (enter_bootloader_already_boot
           (Sample.world [[Sample.t3x_port]] [Sample.answer (lit "JC_boot") 5])).
  vm_compute. reflexivity.
Defined.

(** C10: when the identity query is answered by anything but [JC_boot] and
    [JC_User] (the empty answer of a timeout included), [enter_bootloader]
    logs its error and returns [False]: the one write is the query itself;
    no reset command is sent, no wait made, no port scanned or opened. *)
Theorem enter_bootloader_unrecognized s identity s1 :
  T3XUpdater.get_identity s = (Return identity, s1) ->
  identity <> lit "JC_boot" ->
  identity <> lit "JC_User" ->
  exists s2,
    T3XUpdater.enter_bootloader s = (Return false, s2)
    /\ trace s2 = trace s ++ [EvWrite (lit "JC_identity")]
    /\ comports s2 = comports s
    /\ replies s2 = replies s1
    /\ logged s2 = logged s1 ++ [(ERROR, MsgCouldNotEnter)].
Proof.
  intros H Hboot Huser.
  apply bytes_eqb_neq in Hboot. apply bytes_eqb_neq in Huser.
  eexists. split.
  - unfold T3XUpdater.enter_bootloader, bind. rewrite H, Hboot, Huser.
    reflexivity.
  - apply transfer_frame in H. simpl. tauto.
Qed.

Lemma enter_bootloader_unrecognized_witness :
  exists s2,
    T3XUpdater.enter_bootloader (Sample.world [[Sample.t3x_port]] [])
    = (Return false, s2)
    /\ trace s2 = [EvWrite (lit "JC_identity")]
    /\ comports s2 = [[Sample.t3x_port]].
Proof.
  destruct (enter_bootloader_unrecognized
              (Sample.world [[Sample.t3x_port]] []) []
              (exchanged (lit "JC_identity") (Some []) []
                 (Sample.world [[Sample.t3x_port]] [])))
    as (s2 & Hrun & Htrace & Hports & _).
  - reflexivity.
  - discriminate.
  - discriminate.
  - exists s2. auto.
Defined.

(** C9 fails on the code.  After the reset exchange, the wait and the
    reconnection, [enter_bootloader] sends the identity query twice: the
    first answer is stored and never looked at, the second decides.  Below,
    a device that answers [JC_boot] and then [JC_User] is refused, and one
    that answers nothing at first and then [JC_boot] is accepted; the error
    logged on the refusal carries no identity. *)
Theorem enter_bootloader_requeries_twice :
  let after_reset :=
    [EvWrite (lit "JC_identity"); EvWrite (lit "JC_version");
     EvWrite (lit "JC_V1_T3S_0999"); EvSleep 3; EvOpen "/dev/ttyACM0";
     EvWrite (lit "JC_identity"); EvWrite (lit "JC_identity")] in
  let refused :=
    T3XUpdater.enter_bootloader
      (Sample.world [[Sample.t3x_port]]
         (Sample.user_mode_script (Sample.answer (lit "JC_boot") 4)
                           (Sample.answer (lit "JC_User") 4))) in
  let accepted :=
    T3XUpdater.enter_bootloader
      (Sample.world [[Sample.t3x_port]]
         (Sample.user_mode_script (Rx None []) (Sample.answer (lit "JC_boot") 4))) in
  fst refused = Return false
  /\ trace (snd refused) = after_reset
  /\ last (logged (snd refused)) (DEBUG, MsgDetected) = (ERROR, MsgCouldNotEnter)
  /\ fst accepted = Return true
  /\ trace (snd accepted) = after_reset.
Proof. vm_compute. repeat split; reflexivity. Qed.

(** ** The checksum: [crcmod]'s table against the bit-by-bit definition *)

Section Crc.

Import CrcSpec.

Lemma fits_land_ones n u : 0 <= n -> (fits n u <-> Z.land u (Z.ones n) = u).
Proof.
  intros Hn. rewrite Z.land_ones by exact Hn. unfold fits. split.
  - intros H. apply Z.mod_small. exact H.
  - intros H. rewrite <- H. apply Z.mod_pos_bound. apply Z.pow_pos_nonneg; lia.
Qed.

Lemma land_lxor_distr a b c :
  Z.land (Z.lxor a b) c = Z.lxor (Z.land a c) (Z.land b c).
Proof.
  apply Z.bits_inj'. intros i _.
  rewrite !Z.land_spec, !Z.lxor_spec, !Z.land_spec.
  destruct (Z.testbit a i), (Z.testbit b i), (Z.testbit c i); reflexivity.
Qed.

Lemma fits_lxor n u v : 0 <= n -> fits n u -> fits n v -> fits n (Z.lxor u v).
Proof.
  intros Hn Hu Hv. apply fits_land_ones in Hu, Hv; try exact Hn.
  apply fits_land_ones; [exact Hn|].
  rewrite land_lxor_distr, Hu, Hv. reflexivity.
Qed.

Lemma fits_shiftr n u k : 0 <= k -> fits n u -> fits n (Z.shiftr u k).
Proof.
  intros Hk [H0 H1]. rewrite Z.shiftr_div_pow2 by exact Hk.
  assert (0 < 2 ^ k) by (apply Z.pow_pos_nonneg; lia).
  split.
  - apply Z.div_pos; lia.
  - apply Z.le_lt_trans with u; [|exact H1].
    apply Z.div_le_upper_bound; nia.
Qed.

Lemma step_bit_fits u : fits 16 u -> fits 16 (step_bit u).
Proof.
  intros H. unfold step_bit. destruct (Z.odd u).
  - apply fits_lxor; [lia|apply fits_shiftr; [lia|exact H]|].
    unfold fits, poly_8005_reflected. lia.
  - apply fits_shiftr; [lia|exact H].
Qed.

Lemma iter_step_bit_fits n u : fits 16 u -> fits 16 (Nat.iter n step_bit u).
Proof.
  intros H. induction n as [|n IH]; simpl; [exact H|].
  apply step_bit_fits. exact IH.
Qed.

(** The register update is linear over xor. *)
Lemma step_bit_lxor u v :
  step_bit (Z.lxor u v) = Z.lxor (step_bit u) (step_bit v).
Proof.
  unfold step_bit.
  rewrite <- !Z.bit0_odd, Z.lxor_spec, Z.shiftr_lxor.
  set (p := poly_8005_reflected). set (a := Z.shiftr u 1). set (b := Z.shiftr v 1).
  destruct (Z.testbit u 0), (Z.testbit v 0); simpl;
    apply Z.bits_inj'; intros i _; rewrite !Z.lxor_spec;
    destruct (Z.testbit a i), (Z.testbit b i), (Z.testbit p i); reflexivity.
Qed.

Lemma iter_step_bit_lxor n u v :
  Nat.iter n step_bit (Z.lxor u v)
  = Z.lxor (Nat.iter n step_bit u) (Nat.iter n step_bit v).
Proof.
  induction n as [|n IH]; simpl; [reflexivity|].
  rewrite IH. apply step_bit_lxor.
Qed.

Lemma step_bit_shiftl h k :
  0 < k -> step_bit (Z.shiftl h k) = Z.shiftl h (k - 1).
Proof.
  intros Hk. unfold step_bit.
  rewrite <- Z.bit0_odd, Z.shiftl_spec_low by lia.
  apply Z.shiftr_shiftl_l. lia.
Qed.

Lemma iter_step_bit_shiftl h : Nat.iter 8 step_bit (Z.shiftl h 8) = h.
Proof.
  cbv [Nat.iter nat_rect].
  do 8 (rewrite step_bit_shiftl by lia). apply Z.shiftl_0_r.
Qed.

Lemma lxor_low_high crc x :
  Z.lxor crc x
  = Z.lxor (Z.lxor x (Z.land crc 0xFF)) (Z.shiftl (Z.shiftr crc 8) 8).
Proof.
  change 0xFF with (Z.ones 8).
  apply Z.bits_inj'. intros i Hi.
  rewrite !Z.lxor_spec, Z.land_spec, Z.testbit_ones_nonneg by lia.
  destruct (Z.ltb_spec i 8).
  - rewrite Z.shiftl_spec_low by lia.
    destruct (Z.testbit crc i), (Z.testbit x i); reflexivity.
  - rewrite Z.shiftl_spec, Z.shiftr_spec by lia.
    replace (i - 8 + 8) with i by lia.
    destruct (Z.testbit crc i), (Z.testbit x i); reflexivity.
Qed.

Lemma fits_weaken n m u : n <= m -> fits n u -> fits m u.
Proof.
  intros Hnm [H0 H1]. split; [exact H0|].
  apply Z.lt_le_trans with (2 ^ n); [exact H1|].
  destruct (Z.le_gt_cases 0 n).
  - apply Z.pow_le_mono_r; lia.
  - rewrite Z.pow_neg_r in H1 by lia. lia.
Qed.

Lemma byte_val_fits x : fits 8 (byte_val x).
Proof.
  unfold fits, byte_val. pose proof (Byte.to_N_bounded x). simpl. lia.
Qed.

Lemma iter_shift_r n crc :
  Nat.iter n (Crcmod.shift_r poly_8005_reflected) crc = Nat.iter n step_bit crc.
Proof.
  induction n as [|n IH]; simpl; [reflexivity|].
  rewrite IH. unfold Crcmod.shift_r, step_bit. rewrite Z.bit0_odd. reflexivity.
Qed.

(** An entry of the table is the register after eight shifts of its index. *)
Lemma mkTable_r_nth a :
  fits 8 a ->
  nth (Z.to_nat a) (Crcmod.mkTable_r 0x18005 16) 0 = Nat.iter 8 step_bit a.
Proof.
  intros Ha.
  assert (Hlt : (Z.to_nat a < 256)%nat) by (unfold fits in Ha; simpl in Ha; lia).
  unfold Crcmod.mkTable_r. cbv zeta.
  replace (Crcmod.bitrev (Z.land 0x18005 (Z.shiftl 1 (Z.of_nat 16) - 1)) 16)
    with poly_8005_reflected by (vm_compute; reflexivity).
  rewrite nth_indep with (d' := Crcmod.bytecrc_r (Z.of_nat 0) poly_8005_reflected 16)
    by (rewrite length_map, length_seq; exact Hlt).
  rewrite (map_nth (fun i => Crcmod.bytecrc_r (Z.of_nat i) poly_8005_reflected 16)).
  rewrite seq_nth by exact Hlt.
  unfold Crcmod.bytecrc_r. rewrite iter_shift_r.
  replace (Z.of_nat (0 + Z.to_nat a)) with a by (unfold fits in Ha; lia).
  change (Z.shiftl 1 (Z.of_nat 16) - 1) with (Z.ones 16).
  apply fits_land_ones; [lia|].
  apply iter_step_bit_fits. apply (fits_weaken 8); [lia|exact Ha].
Qed.

Lemma step_byte_fits crc x : fits 16 crc -> fits 16 (step_byte crc x).
Proof.
  intros H. unfold step_byte. apply iter_step_bit_fits.
  apply fits_lxor; [lia|exact H|].
  apply (fits_weaken 8); [lia|apply byte_val_fits].
Qed.

(** One byte through the table is one byte through the shift register. *)
Lemma crc16r_step crc x :
  fits 16 crc ->
  Z.lxor (nth (Z.to_nat (Z.lxor (byte_val x) (Z.land crc 0xFF)))
              (Crcmod.mkTable_r 0x18005 16) 0)
         (Z.shiftr crc 8)
  = step_byte crc x.
Proof.
  intros H.
  assert (Hlow : fits 8 (Z.lxor (byte_val x) (Z.land crc 0xFF))).
  { apply fits_lxor; [lia|apply byte_val_fits|].
    change 0xFF with (Z.ones 8). rewrite Z.land_ones by lia.
    apply Z.mod_pos_bound. lia. }
  rewrite (mkTable_r_nth _ Hlow). unfold step_byte.
  rewrite (lxor_low_high crc (byte_val x)).
  rewrite (iter_step_bit_lxor 8 _ (Z.shiftl (Z.shiftr crc 8) 8)).
  rewrite iter_step_bit_shiftl. reflexivity.
Qed.

Lemma crc16r_fold data : forall crc,
  fits 16 crc ->
  fold_left
    (fun crc x =>
       Z.lxor (nth (Z.to_nat (Z.lxor (byte_val x) (Z.land crc 0xFF)))
                   (Crcmod.mkTable_r 0x18005 16) 0)
              (Z.shiftr crc 8))
    data crc
  = fold_left step_byte data crc.
Proof.
  induction data as [|x data IH]; intros crc H; cbn [fold_left]; [reflexivity|].
  rewrite (crc16r_step _ _ H). apply IH. apply step_byte_fits. exact H.
Qed.

(** The function [parse_update] builds with [crcmod] computes the CRC-16
    with polynomial 0x8005 in reflected form, initial value 0xFFFF and no
    final xor. *)
Lemma crc16fn_bitwise data :
  T3XUpdater.crc16fn data = crc16 0xFFFF 0 data.
Proof.
  unfold T3XUpdater.crc16fn, Crcmod.mkCrcFun16_rev, crc16. cbv zeta.
  change (Z.land 0x0000 0xFFFF =? 0) with true. cbv iota.
  unfold Crcmod.crc16r.
  change (Z.land (Z.land 0xFFFF 0xFFFF) 0xFFFF) with 0xFFFF.
  rewrite Z.lxor_0_r. apply crc16r_fold. unfold fits. lia.
Qed.

End Crc.

(** ** [parse_update] *)

Ltac run_parse :=
  cbv beta iota zeta delta
    [T3XUpdater.parse_update bind ret raise log decode file_open file_seek
     file_read file_read_all fdata fpos inbuf comports replies trace logged
     negb andb].

Section ParseUpdate.

Variables (file : bytes) (s : state).

Lemma parse_update_wrong_magic :
  ~ magic_ok file ->
  exists s',
    T3XUpdater.parse_update file s = (Return (None, None, 0), s')
    /\ logged s' = logged s ++ [(ERROR, MsgWrongFile)].
Proof.
  unfold magic_ok, slice. intros H. apply bytes_eqb_neq in H.
  run_parse. rewrite H. eexists. split; reflexivity.
Qed.

Lemma parse_update_bad_size :
  magic_ok file ->
  len file <> declared_size file ->
  exists s',
    T3XUpdater.parse_update file s = (Return (None, None, 0), s')
    /\ logged s' = logged s ++ [(DEBUG, MsgDetected); (ERROR, MsgBadSize)].
Proof.
  unfold magic_ok, declared_size, slice. intros Hm Hs.
  apply bytes_eqb_eq in Hm. apply Z.eqb_neq in Hs.
  run_parse. rewrite Hm, Hs. run_parse. eexists. split; [reflexivity|].
  cbv [logged]. rewrite <- app_assoc. reflexivity.
Qed.

Lemma parse_update_bad_checksum :
  magic_ok file ->
  len file = declared_size file ->
  T3XUpdater.crc16fn (payload file) <> stored_checksum file ->
  exists s',
    T3XUpdater.parse_update file s = (Return (None, None, 0), s')
    /\ logged s' = logged s ++
         [(DEBUG, MsgDetected);
          (ERROR, MsgChecksum (stored_checksum file)
                              (T3XUpdater.crc16fn (payload file)))].
Proof.
  unfold magic_ok, declared_size, stored_checksum, payload, slice.
  intros Hm Hs Hc.
  apply bytes_eqb_eq in Hm. apply Z.eqb_eq in Hs. apply Z.eqb_neq in Hc.
  run_parse. rewrite Hm, Hs. run_parse. rewrite Hc. run_parse.
  eexists. split; [reflexivity|].
  cbv [logged]. rewrite <- app_assoc. reflexivity.
Qed.

Lemma parse_update_valid :
  magic_ok file ->
  len file = declared_size file ->
  T3XUpdater.crc16fn (payload file) = stored_checksum file ->
  exists s',
    T3XUpdater.parse_update file s
    = (if Py.utf8_valid (product_of file) && Py.utf8_valid (version_of file)
       then Return (Some (product_of file), Some (version_of file), len file)
       else Raise UnicodeDecodeError, s')
    /\ fdata s' = file
    /\ comports s' = comports s /\ replies s' = replies s
    /\ trace s' = trace s.
Proof.
  unfold magic_ok, declared_size, stored_checksum, payload, product_of,
    version_of, slice.
  intros Hm Hs Hc.
  apply bytes_eqb_eq in Hm. apply Z.eqb_eq in Hs. apply Z.eqb_eq in Hc.
  run_parse. rewrite Hm, Hs. run_parse. rewrite Hc. run_parse.
  destruct (bytes_eqb (firstn 4 (skipn 64 file)) (lit "vers")); run_parse;
    (destruct (Py.utf8_valid (last _ _)); run_parse;
     [destruct (Py.utf8_valid (firstn _ _)); run_parse|]);
    eexists; (split; [reflexivity|auto]).
Qed.

End ParseUpdate.

Lemma parse_update_frame file s p v n s' :
  T3XUpdater.parse_update file s = (Return (Some p, v, n), s') ->
  magic_ok file
  /\ len file = declared_size file
  /\ T3XUpdater.crc16fn (payload file) = stored_checksum file
  /\ p = product_of file /\ v = Some (version_of file) /\ n = len file
  /\ Py.utf8_valid p = true /\ Py.utf8_valid (version_of file) = true
  /\ fdata s' = file /\ comports s' = comports s /\ replies s' = replies s
  /\ trace s' = trace s.
Proof.
  intros H.
  destruct (bytes_eq_dec (slice file 0 4) (lit "JCID")) as [Hm|Hm].
  2:{ destruct (parse_update_wrong_magic file s Hm) as (s1 & E & _). congruence. }
  destruct (Z.eq_dec (len file) (declared_size file)) as [Hs|Hs].
  2:{ destruct (parse_update_bad_size file s Hm Hs) as (s1 & E & _). congruence. }
  destruct (Z.eq_dec (T3XUpdater.crc16fn (payload file)) (stored_checksum file))
    as [Hc|Hc].
  2:{ destruct (parse_update_bad_checksum file s Hm Hs Hc) as (s1 & E & _).
      congruence. }
  destruct (parse_update_valid file s Hm Hs Hc) as (s1 & E & Hf & Hp & Hr & Ht).
  rewrite E in H.
  destruct (Py.utf8_valid (product_of file)) eqn:Up;
    destruct (Py.utf8_valid (version_of file)) eqn:Uv; simpl in H;
    try discriminate H.
  inversion H; subst. repeat split; auto.
Qed.

(** C1: [parse_update] returns a product or a version only for a file whose
    length is the big-endian value of its four bytes at 0x60 plus 0x100 and
    whose bytes from 0x100 on have the CRC-16 (polynomial 0x8005 reflected,
    initial value 0xFFFF, no final xor) that its two bytes at 0x64 hold, and
    then returns that length as the size.  A file that breaks either
    condition gets [(None, None, 0)] and the error of the first check it
    fails: the wrong-file error without the [JCID] magic, else the size error
    when the size is wrong, else the checksum error with the stored and the
    computed value. *)
Theorem parse_update_validates file s :
  (forall p v n s',
      T3XUpdater.parse_update file s = (Return (p, v, n), s') ->
      p <> None \/ v <> None ->
      len file = declared_size file
      /\ CrcSpec.crc16 0xFFFF 0 (payload file) = stored_checksum file
      /\ n = len file)
  /\ (~ (len file = declared_size file
         /\ CrcSpec.crc16 0xFFFF 0 (payload file) = stored_checksum file) ->
      exists s',
        T3XUpdater.parse_update file s = (Return (None, None, 0), s')
        /\ ((~ magic_ok file
             /\ logged s' = logged s ++ [(ERROR, MsgWrongFile)])
            \/ (magic_ok file /\ len file <> declared_size file
                /\ logged s' = logged s ++ [(DEBUG, MsgDetected); (ERROR, MsgBadSize)])
            \/ (magic_ok file /\ len file = declared_size file
                /\ logged s' = logged s ++
                     [(DEBUG, MsgDetected);
                      (ERROR, MsgChecksum (stored_checksum file)
                                (CrcSpec.crc16 0xFFFF 0 (payload file)))]))).
Proof.
  rewrite <- crc16fn_bitwise. split.
  - intros p v n s' H Hsome.
    destruct (bytes_eq_dec (slice file 0 4) (lit "JCID")) as [Hm|Hm].
    2:{ destruct (parse_update_wrong_magic file s Hm) as (s1 & E & _).
        rewrite E in H. inversion H; subst. destruct Hsome; congruence. }
    destruct (Z.eq_dec (len file) (declared_size file)) as [Hs|Hs].
    2:{ destruct (parse_update_bad_size file s Hm Hs) as (s1 & E & _).
        rewrite E in H. inversion H; subst. destruct Hsome; congruence. }
    destruct (Z.eq_dec (T3XUpdater.crc16fn (payload file)) (stored_checksum file))
      as [Hc|Hc].
    2:{ destruct (parse_update_bad_checksum file s Hm Hs Hc) as (s1 & E & _).
        rewrite E in H. inversion H; subst. destruct Hsome; congruence. }
    destruct (parse_update_valid file s Hm Hs Hc) as (s1 & E & _).
    rewrite E in H.
    destruct (Py.utf8_valid (product_of file) && Py.utf8_valid (version_of file));
      inversion H; subst. auto.
  - intros Hbad.
    destruct (bytes_eq_dec (slice file 0 4) (lit "JCID")) as [Hm|Hm].
    2:{ destruct (parse_update_wrong_magic file s Hm) as (s1 & E & L).
        exists s1. split; [exact E|]. left. split; assumption. }
    destruct (Z.eq_dec (len file) (declared_size file)) as [Hs|Hs].
    2:{ destruct (parse_update_bad_size file s Hm Hs) as (s1 & E & L).
        exists s1. split; [exact E|]. right. left. auto. }
    destruct (Z.eq_dec (T3XUpdater.crc16fn (payload file)) (stored_checksum file))
      as [Hc|Hc].
    + exfalso. apply Hbad. split; assumption.
    + destruct (parse_update_bad_checksum file s Hm Hs Hc) as (s1 & E & L).
      exists s1. split; [exact E|]. right. right. auto.
Qed.

Lemma parse_update_validates_witness :
  let truncated := firstn 4000 Sample.image_t3s in
  exists s',
    T3XUpdater.parse_update truncated (Sample.world [] [])
    = (Return (None, None, 0), s')
    /\ logged s' = [(DEBUG, MsgDetected); (ERROR, MsgBadSize)].
Proof.
  intros truncated.
  destruct (parse_update_validates truncated (Sample.world [] [])) as [_ Hfail].
  destruct Hfail as (s' & Hrun & Hlog).
  - intros [Hsize _]. vm_compute in Hsize. discriminate Hsize.
  - exists s'. split; [exact Hrun|].
    destruct Hlog as [[Hm _]|[(_ & _ & L)|(_ & Hs & _)]].
    + exfalso. apply Hm. vm_compute. reflexivity.
    + exact L.
    + vm_compute in Hs. discriminate Hs.
Defined.

(** C3 fails on the code: a file that passes the magic, size and checksum
    checks and holds four bytes other than [vers] at 0x40 gets no version
    back when those bytes are not UTF-8: formatting the [info] message
    decodes them, and [parse_update] ends in [UnicodeDecodeError]. *)
Theorem parse_update_binary_version_raises :
  let file := Sample.image (lit "JCID_T3S") [xff; xfe; xfd; xfc] (repeat x5a 16) in
  magic_ok file
  /\ len file = declared_size file
  /\ T3XUpdater.crc16fn (payload file) = stored_checksum file
  /\ slice file 0x40 4 = [xff; xfe; xfd; xfc]
  /\ fst (T3XUpdater.parse_update file (Sample.world [] []))
     = Raise UnicodeDecodeError.
Proof. vm_compute. repeat split; reflexivity. Qed.

(** ** [do_update]: the product check *)

Lemma connect_frame s s' :
  T3XUpdater.connect s = (Return tt, s') ->
  exists port,
    trace s' = trace s ++ [EvOpen (device port)]
    /\ replies s' = replies s
    /\ fdata s' = fdata s.
Proof.
  unfold T3XUpdater.connect, T3XUpdater.get_port, bind, list_ports_comports,
    serial_Serial, emit, log, raise, ret.
  cbv beta iota zeta.
  destruct (1 <? len (filter T3XUpdater.is_t3x (hd [] (comports s)))).
  - discriminate.
  - destruct (filter T3XUpdater.is_t3x (hd [] (comports s))) as [|port ports].
    + discriminate.
    + cbv beta iota zeta. destruct (opens port); [|discriminate].
      intros H. inversion H; subst. exists port. simpl. auto.
Qed.

Lemma get_product_frame s r s' :
  T3XUpdater.get_product s = (r, s') ->
  trace s' = trace s ++ [EvWrite (lit "JC_version")]
  /\ replies s' = tl (replies s).
Proof.
  unfold T3XUpdater.get_product, T3XUpdater.get_raw_version, bind.
  destruct (T3XUpdater.transfer (lit "JC_version") s) as [[raw|e] s1] eqn:E;
    apply transfer_frame in E.
  - destruct (nth_error (Py.split "_"%byte raw) 2); unfold ret, raise;
      intros H; inversion H; subst; tauto.
  - intros H; inversion H; subst; tauto.
Qed.

Lemma do_update_at_product_check file s fw_product fw_version fw_size s1 s2
      product s3 :
  T3XUpdater.parse_update file s
  = (Return (Some fw_product, Some fw_version, fw_size), s1) ->
  fw_product <> [] ->
  fw_version <> [] ->
  T3XUpdater.connect s1 = (Return tt, s2) ->
  T3XUpdater.get_product s2 = (Return product, s3) ->
  fw_product <> product ->
  T3XUpdater.do_update file s
  = (if Py.utf8_valid product
     then (Return false,
           snd (log ERROR (MsgProductMismatch fw_product product) s3))
     else (Raise UnicodeDecodeError, s3))
  /\ exists port,
       trace s3 = trace s ++ [EvOpen (device port); EvWrite (lit "JC_version")]
       /\ replies s3 = tl (replies s).
Proof.
  intros Hparse Hp Hv Hconn Hprod Hneq.
  destruct (parse_update_frame _ _ _ _ _ _ Hparse)
    as (_ & _ & _ & _ & _ & _ & Up & _ & _ & _ & Hr1 & Ht1).
  destruct (connect_frame _ _ Hconn) as (port & Ht2 & Hr2 & _).
  destruct (get_product_frame _ _ _ Hprod) as (Ht3 & Hr3).
  apply bytes_eqb_neq in Hneq.
  assert (Hrun : T3XUpdater.do_update file s
                 = (decode fw_product ;; decode product ;;
                    log ERROR (MsgProductMismatch fw_product product) ;;
                    ret false) s3).
  { unfold T3XUpdater.do_update. unfold bind at 1. rewrite Hparse.
    cbv beta iota zeta.
    destruct fw_product as [|x p]; [congruence|].
    destruct fw_version as [|y v]; [congruence|].
    cbv beta iota zeta delta [Py.truthy andb negb].
    unfold bind at 1. rewrite Hconn.
    unfold bind at 1. rewrite Hprod. cbv beta iota zeta.
    rewrite Hneq. reflexivity. }
  split.
  - rewrite Hrun. unfold decode, bind, log, ret, raise. rewrite Up.
    destruct (Py.utf8_valid product); reflexivity.
  - exists port. rewrite Ht3, Ht2, Ht1, Hr3, Hr2, Hr1, <- app_assoc.
    split; reflexivity.
Qed.

(** C8 fails on the code: when the product the device reports differs from
    the product of the image and is not UTF-8, the run does not end with
    the product-mismatch failure.  Formatting the message of [error]
    decodes the device's product, so [do_update] (and [main] with it) ends
    in [UnicodeDecodeError] in the very world the product query left: no
    mismatch is logged, [False] is not returned, and the exit status 1 of
    [main] is not reached.  What the link has seen by then is the opening
    of the port and the one [JC_version] query that asked for the
    product. *)
Theorem do_update_product_mismatch_raises file s fw_product fw_version fw_size
        s1 s2 product s3 :
  T3XUpdater.parse_update file s
  = (Return (Some fw_product, Some fw_version, fw_size), s1) ->
  fw_product <> [] ->
  fw_version <> [] ->
  T3XUpdater.connect s1 = (Return tt, s2) ->
  T3XUpdater.get_product s2 = (Return product, s3) ->
  fw_product <> product ->
  Py.utf8_valid product = false ->
  T3XUpdater.do_update file s = (Raise UnicodeDecodeError, s3)
  /\ main file s = (Raise UnicodeDecodeError, s3)
  /\ exists port,
       trace s3 = trace s ++ [EvOpen (device port); EvWrite (lit "JC_version")]
       /\ replies s3 = tl (replies s).
Proof.
  intros Hparse Hp Hv Hconn Hprod Hneq Hbad.
  destruct (do_update_at_product_check _ _ _ _ _ _ _ _ _
              Hparse Hp Hv Hconn Hprod Hneq) as (Hrun & Hlink).
  rewrite Hbad in Hrun.
  split; [exact Hrun|]. split; [|exact Hlink].
  unfold main, bind. rewrite Hrun. reflexivity.
Qed.

(** X16: when the product the device reports differs from the product of
    the image and is UTF-8, [do_update] ends at the product check: it logs
    the mismatch with both products and returns [False], [main] exits with
    status 1, and all that was done to the link is the opening of the port
    and the one [JC_version] query that asked for the product; no identity
    query, reset command, update-start command or chunk is sent, and the
    replies that follow are left unread. *)
Theorem do_update_product_mismatch_reported file s fw_product fw_version
        fw_size s1 s2 product s3 :
  T3XUpdater.parse_update file s
  = (Return (Some fw_product, Some fw_version, fw_size), s1) ->
  fw_product <> [] ->
  fw_version <> [] ->
  T3XUpdater.connect s1 = (Return tt, s2) ->
  T3XUpdater.get_product s2 = (Return product, s3) ->
  fw_product <> product ->
  Py.utf8_valid product = true ->
  exists s4 port,
    T3XUpdater.do_update file s = (Return false, s4)
    /\ main file s = (Raise (SystemExit 1), s4)
    /\ trace s4 = trace s ++ [EvOpen (device port); EvWrite (lit "JC_version")]
    /\ replies s4 = tl (replies s)
    /\ logged s4
       = logged s3 ++ [(ERROR, MsgProductMismatch fw_product product)].
Proof.
  intros Hparse Hp Hv Hconn Hprod Hneq Hgood.
  destruct (do_update_at_product_check _ _ _ _ _ _ _ _ _
              Hparse Hp Hv Hconn Hprod Hneq) as (Hrun & port & Ht & Hr).
  rewrite Hgood in Hrun.
  exists (snd (log ERROR (MsgProductMismatch fw_product product) s3)), port.
  split; [exact Hrun|].
  split; [unfold main, bind; rewrite Hrun; reflexivity|].
  cbn [log snd trace replies logged]. auto.
Qed.

(** ** The upload loop *)

Section Upload.

Import T3XUpdater.

Variable fw_size : Z.

Lemma do_update_loop_cons offset offsets' :
  do_update_loop fw_size (offset :: offsets')
  = (data <- file_read 2048 ;;
     match data with
     | [] => ret None
     | _ :: _ =>
         ack <- try_serial (transfer data) ;;
         match ack with
         | Some ack =>
             if negb (bytes_eqb ack (lit "ack_jcxx")) then
               log ERROR MsgUpdateFailed ;; ret (Some false)
             else do_update_loop fw_size offsets'
         | None =>
             if offset =? fw_size - 256 then
               log WARNING MsgDoneDisconnect ;;
               do_update_loop fw_size offsets'
             else
               log ERROR MsgUpdateFailed ;; ret (Some false)
         end
     end).
Proof. reflexivity. Qed.

(** One turn of the loop, by what the device does. *)
Lemma loop_turn offset offsets' s :
  slice (fdata s) (fpos s) 2048 <> [] ->
  exists s1,
    do_update_loop fw_size (offset :: offsets') s
    = match replies s with
      | Rx first rest :: _ =>
          if bytes_eqb (cleaned first rest) (lit "ack_jcxx")
          then do_update_loop fw_size offsets' s1
          else (Return (Some false), s1)
      | LinkLost :: _ =>
          if offset =? fw_size - 256
          then do_update_loop fw_size offsets' s1
          else (Return (Some false), s1)
      | [] => (Return (Some false), s1)
      end
    /\ fdata s1 = fdata s
    /\ fpos s1 = (fpos s + List.length (slice (fdata s) (fpos s) 2048))%nat
    /\ comports s1 = comports s
    /\ replies s1 = tl (replies s)
    /\ trace s1 = trace s ++ [EvWrite (slice (fdata s) (fpos s) 2048)].
Proof.
  intros Hdata. rewrite do_update_loop_cons.
  unfold bind at 1. unfold file_read at 1. fold (slice (fdata s) (fpos s) 2048).
  cbv zeta. fold (advanced s).
  destruct (slice (fdata s) (fpos s) 2048) as [|x data] eqn:E; [congruence|].
  unfold bind at 1, try_serial.
  destruct (replies s) as [|[first rest|] rs] eqn:R.
  - rewrite (transfer_silence _ (advanced s) R).
    change (bytes_eqb [] (lit "ack_jcxx")) with false. cbv [negb].
    eexists. split; [reflexivity|]. simpl. rewrite E. auto.
  - rewrite (transfer_Rx _ (advanced s) rs first rest R).
    destruct (bytes_eqb (cleaned first rest) (lit "ack_jcxx")); cbv [negb];
      (eexists; split; [reflexivity|]; simpl; rewrite E; auto).
  - rewrite (transfer_LinkLost _ (advanced s) rs R).
    destruct (offset =? fw_size - 256);
      (eexists; split; [reflexivity|]; simpl; rewrite E; auto).
Qed.

Variable file : bytes.
Hypothesis size_is_length : fw_size = len file.

Lemma lt_chunk_count k :
  (k < chunk_count fw_size)%nat <-> offset_of k < fw_size.
Proof.
  unfold chunk_count, offset_of.
  pose proof (Z.div_mod (fw_size + 2047) 2048 ltac:(lia)) as Hd.
  pose proof (Z.mod_pos_bound (fw_size + 2047) 2048 ltac:(lia)) as Hm.
  split; intros H; lia.
Qed.

Lemma skipn_min (k : nat) :
  skipn (Nat.min k (List.length file)) file = skipn k file.
Proof.
  destruct (Nat.le_gt_cases k (List.length file)) as [H|H].
  - rewrite Nat.min_l by exact H. reflexivity.
  - rewrite Nat.min_r by lia.
    rewrite !skipn_all2; [reflexivity|lia|lia].
Qed.

Lemma chunk_at k s :
  fdata s = file -> fpos s = Nat.min (2048 * k) (List.length file) ->
  slice (fdata s) (fpos s) 2048 = chunk file k.
Proof.
  intros -> ->. unfold chunk, slice. rewrite skipn_min. reflexivity.
Qed.

Lemma chunk_length k :
  List.length (chunk file k)
  = Nat.min 2048 (List.length file - 2048 * k).
Proof.
  unfold chunk, slice. rewrite length_firstn, length_skipn. reflexivity.
Qed.

Lemma chunk_nonempty k : (k < chunk_count fw_size)%nat -> chunk file k <> [].
Proof.
  intros H E. apply lt_chunk_count in H.
  pose proof (chunk_length k) as Hl. rewrite E in Hl.
  change (@List.length byte []) with 0%nat in Hl.
  unfold offset_of in H. rewrite size_is_length in H. unfold len in H. lia.
Qed.

(** As long as the device acknowledges, the loop sends chunk after chunk. *)
Lemma loop_acked m : forall k s good rest more,
  fdata s = file ->
  fpos s = Nat.min (2048 * k) (List.length file) ->
  (k + m <= chunk_count fw_size)%nat ->
  List.length good = m ->
  Forall is_ack good ->
  replies s = good ++ rest ->
  exists s1,
    do_update_loop fw_size (map offset_of (seq k m) ++ more) s
    = do_update_loop fw_size more s1
    /\ fdata s1 = file
    /\ fpos s1 = Nat.min (2048 * (k + m)) (List.length file)
    /\ comports s1 = comports s
    /\ replies s1 = rest
    /\ trace s1 = trace s ++ map EvWrite (map (chunk file) (seq k m)).
Proof.
  induction m as [|m IH]; intros k s good rest more Hf Hp Hk Hlen Hack Hr.
  - destruct good; [|discriminate]. simpl in Hr. exists s.
    cbn [seq map app]. rewrite Nat.add_0_r, app_nil_r.
    repeat split; assumption || reflexivity.
  - destruct good as [|r good]; [discriminate|].
    apply Forall_cons_iff in Hack. destruct Hack as [Hr0 Hack'].
    pose proof (chunk_at k s Hf Hp) as Hc.
    destruct (loop_turn (offset_of k) (map offset_of (seq (S k) m) ++ more) s)
      as (s1 & Hrun & Hf1 & Hp1 & Hc1 & Hr1 & Ht1).
    { rewrite Hc. apply chunk_nonempty. lia. }
    rewrite Hr in Hrun, Hr1. cbn [app tl] in Hrun, Hr1.
    destruct r as [first r0|]; [|contradiction].
    cbn [is_ack] in Hr0. rewrite Hr0 in Hrun.
    change (bytes_eqb (lit "ack_jcxx") (lit "ack_jcxx")) with true in Hrun.
    destruct (IH (S k) s1 good rest more) as (s2 & Hrun2 & Hf2 & Hp2 & Hc2 & Hr2 & Ht2).
    + congruence.
    + rewrite Hp1, Hc, chunk_length, Hp. lia.
    + lia.
    + simpl in Hlen. lia.
    + exact Hack'.
    + exact Hr1.
    + exists s2. cbn [seq map app]. rewrite Hrun, Hrun2.
      split; [reflexivity|]. split; [exact Hf2|].
      split; [rewrite Hp2; replace (S k + m)%nat with (k + S m)%nat by lia;
              reflexivity|].
      split; [congruence|]. split; [exact Hr2|].
      rewrite Ht2, Ht1, Hc, <- app_assoc. reflexivity.
Qed.

(** Whatever the device does, the loop sends the chunks in order, from the
    first one on, each once, and it leaves normally only when it has sent
    them all. *)
Lemma loop_prefix m : forall k s r s',
  fdata s = file ->
  fpos s = Nat.min (2048 * k) (List.length file) ->
  (k + m <= chunk_count fw_size)%nat ->
  do_update_loop fw_size (map offset_of (seq k m)) s = (r, s') ->
  exists j,
    (j <= m)%nat
    /\ trace s' = trace s ++ map EvWrite (map (chunk file) (seq k j))
    /\ (r = Return None -> j = m)
    /\ (r = Return None \/ r = Return (Some false)).
Proof.
  induction m as [|m IH]; intros k s r s' Hf Hp Hk Hrun.
  - simpl in Hrun. injection Hrun as Er Es. subst r s'. exists 0%nat.
    cbn [seq map]. rewrite app_nil_r. auto.
  - pose proof (chunk_at k s Hf Hp) as Hc.
    destruct (loop_turn (offset_of k) (map offset_of (seq (S k) m)) s)
      as (s1 & Hturn & Hf1 & Hp1 & Hc1 & Hr1 & Ht1).
    { rewrite Hc. apply chunk_nonempty. lia. }
    cbn [seq map] in Hrun. rewrite Hturn in Hrun. rewrite Hc in Ht1.
    assert (Hgo : do_update_loop fw_size (map offset_of (seq (S k) m)) s1 = (r, s')
                  -> exists j,
                    (j <= S m)%nat
                    /\ trace s' = trace s ++ map EvWrite (map (chunk file) (seq k j))
                    /\ (r = Return None -> j = S m)
                    /\ (r = Return None \/ r = Return (Some false))).
    { intros Hrest.
      destruct (IH (S k) s1 r s') as (j & Hj & Ht & Hall & Hres).
      - congruence.
      - rewrite Hp1, Hc, chunk_length, Hp. lia.
      - lia.
      - exact Hrest.
      - exists (S j). split; [lia|]. split.
        + rewrite Ht, Ht1, <- app_assoc. reflexivity.
        + split; [intros E; rewrite (Hall E); reflexivity|exact Hres]. }
    assert (Hstop : (Return (Some false), s1) = (r, s')
                    -> exists j,
                      (j <= S m)%nat
                      /\ trace s' = trace s ++ map EvWrite (map (chunk file) (seq k j))
                      /\ (r = Return None -> j = S m)
                      /\ (r = Return None \/ r = Return (Some false))).
    { intros E. injection E as Er Es. subst r s'. exists 1%nat. split; [lia|].
      split; [exact Ht1|]. split; [discriminate|auto]. }
    destruct (replies s) as [|[first rest|] rs].
    + auto.
    + destruct (bytes_eqb (cleaned first rest) (lit "ack_jcxx")); auto.
    + destruct (offset_of k =? fw_size - 256); auto.
Qed.

End Upload.

Lemma range_offsets size :
  Py.range 0 size 2048 = map offset_of (seq 0 (chunk_count size)).
Proof.
  unfold Py.range, chunk_count, offset_of.
  replace (size - 0 + 2048 - 1) with (size + 2047) by lia.
  apply map_ext. intros k. lia.
Qed.

Lemma firstn_seq j : forall a n, firstn j (seq a n) = seq a (Nat.min j n).
Proof.
  induction j as [|j IH]; intros a n; [reflexivity|].
  destruct n as [|n]; [reflexivity|].
  cbn [seq firstn Nat.min]. rewrite IH. reflexivity.
Qed.

Lemma firstn_chunks file j :
  (j <= chunk_count (len file))%nat ->
  firstn j (chunks file) = map (chunk file) (seq 0 j).
Proof.
  intros H. unfold chunks. rewrite firstn_map, firstn_seq.
  rewrite Nat.min_l by exact H. reflexivity.
Qed.

Lemma firstn_plus {A} (a b : nat) : forall l : list A,
  firstn (a + b) l = firstn a l ++ firstn b (skipn a l).
Proof.
  induction a as [|a IH]; intros l; [reflexivity|].
  destruct l as [|x l]; simpl.
  - rewrite firstn_nil. reflexivity.
  - rewrite IH. reflexivity.
Qed.

Lemma concat_chunks_from file m : forall k,
  List.concat (map (chunk file) (seq k m))
  = firstn (2048 * m) (skipn (2048 * k) file).
Proof.
  induction m as [|m IH]; intros k.
  - rewrite Nat.mul_0_r. reflexivity.
  - cbn [seq map List.concat]. rewrite IH.
    replace (2048 * S m)%nat with (2048 + 2048 * m)%nat by lia.
    rewrite firstn_plus, skipn_skipn.
    replace (2048 + 2048 * k)%nat with (2048 * S k)%nat by lia.
    reflexivity.
Qed.

(** The chunks are the file, cut every 2048 bytes. *)
Lemma concat_chunks file : List.concat (chunks file) = file.
Proof.
  unfold chunks. rewrite concat_chunks_from.
  rewrite Nat.mul_0_r. cbn [skipn]. apply firstn_all2.
  pose proof (lt_chunk_count (len file) (chunk_count (len file))) as H.
  unfold offset_of, len in *. lia.
Qed.

Lemma chunk_sizes file k :
  (k < chunk_count (len file))%nat ->
  0 <= offset_of k < len file
  /\ chunk file k = slice file (Z.to_nat (offset_of k)) 2048
  /\ ((S k < chunk_count (len file))%nat -> len (chunk file k) = 2048)
  /\ (S k = chunk_count (len file) ->
      len (chunk file k)
      = if len file mod 2048 =? 0 then 2048 else len file mod 2048).
Proof.
  intros Hk.
  pose proof (proj1 (lt_chunk_count (len file) k) Hk) as Hlt.
  pose proof (lt_chunk_count (len file) (S k)) as Hnext.
  pose proof (chunk_length file k) as Hlen.
  unfold offset_of, len in *.
  split; [lia|]. split.
  - unfold chunk. f_equal. lia.
  - split.
    + intros HS. lia.
    + intros HS.
      assert (Hge : ~ 2048 * Z.of_nat (S k) < Z.of_nat (List.length file)).
      { intros H. apply Hnext in H. lia. }
      pose proof (Z.div_mod (Z.of_nat (List.length file)) 2048 ltac:(lia)) as Hd.
      pose proof (Z.mod_pos_bound (Z.of_nat (List.length file)) 2048 ltac:(lia)) as Hm.
      destruct (Z.eqb_spec (Z.of_nat (List.length file) mod 2048) 0) as [E|E]; lia.
Qed.

(** C4: the loop of [do_update] walks the offsets 0, 2048, 4096, ... below
    the size and sends, in that order and each once, the slice of the file
    that starts at each offset: 2048 bytes long, except the last one, which
    holds the size modulo 2048 bytes (2048 when that is zero); together the
    slices are the file.  Whatever the device answers, what has been sent is
    a prefix of that sequence; it is all of it when the loop is left
    normally, which it is when every chunk is acknowledged. *)
Theorem do_update_loop_chunk_sequence file s :
  fdata s = file ->
  fpos s = 0%nat ->
  let size := len file in
  let n := chunk_count size in
  Py.range 0 size 2048 = map offset_of (seq 0 n)
  /\ (forall k, (k < n)%nat ->
        0 <= offset_of k < size
        /\ chunk file k = slice file (Z.to_nat (offset_of k)) 2048
        /\ ((S k < n)%nat -> len (chunk file k) = 2048)
        /\ (S k = n ->
            len (chunk file k)
            = if size mod 2048 =? 0 then 2048 else size mod 2048))
  /\ List.concat (chunks file) = file
  /\ (forall r s',
        T3XUpdater.do_update_loop size (Py.range 0 size 2048) s = (r, s') ->
        exists j,
          (j <= n)%nat
          /\ trace s' = trace s ++ map EvWrite (firstn j (chunks file))
          /\ (r = Return None -> j = n))
  /\ (forall good rest,
        replies s = good ++ rest ->
        List.length good = n ->
        Forall is_ack good ->
        exists s',
          T3XUpdater.do_update_loop size (Py.range 0 size 2048) s
          = (Return None, s')
          /\ trace s' = trace s ++ map EvWrite (chunks file)
          /\ replies s' = rest).
Proof.
  intros Hf Hp size n.
  assert (Hp' : fpos s = Nat.min (2048 * 0) (List.length file))
    by (rewrite Hp; reflexivity).
  split; [apply range_offsets|].
  split; [intros k Hk; apply chunk_sizes; exact Hk|].
  split; [apply concat_chunks|].
  rewrite range_offsets. fold n. split.
  - intros r s' Hrun.
    destruct (loop_prefix size file eq_refl n 0%nat s r s' Hf Hp' (Nat.le_refl _) Hrun)
      as (j & Hj & Ht & Hall & _).
    exists j. rewrite firstn_chunks by exact Hj. auto.
  - intros good rest Hr Hlen Hack.
    destruct (loop_acked size file eq_refl n 0%nat s good rest [] Hf Hp'
                (Nat.le_refl _) Hlen Hack Hr)
      as (s1 & Hrun & _ & _ & _ & Hr1 & Ht1).
    rewrite app_nil_r in Hrun. exists s1.
    split; [exact Hrun|]. split; [exact Ht1|exact Hr1].
Qed.

(** The turn at which the device stops acknowledging. *)
Lemma loop_first_failure size file s good bad rest :
  size = len file ->
  fdata s = file ->
  fpos s = 0%nat ->
  replies s = good ++ bad :: rest ->
  Forall is_ack good ->
  (List.length good < chunk_count size)%nat ->
  exists s1,
    T3XUpdater.do_update_loop size (Py.range 0 size 2048) s
    = match bad with
      | Rx first r =>
          if bytes_eqb (cleaned first r) (lit "ack_jcxx")
          then T3XUpdater.do_update_loop size
                 (map offset_of (seq (S (List.length good))
                                     (chunk_count size - S (List.length good)))) s1
          else (Return (Some false), s1)
      | LinkLost =>
          if offset_of (List.length good) =? size - 256
          then T3XUpdater.do_update_loop size
                 (map offset_of (seq (S (List.length good))
                                     (chunk_count size - S (List.length good)))) s1
          else (Return (Some false), s1)
      end
    /\ replies s1 = rest
    /\ trace s1
       = trace s ++ map EvWrite (firstn (S (List.length good)) (chunks file)).
Proof.
  intros Hsize Hf Hp Hr Hack Hk.
  remember (List.length good) as k eqn:Ek.
  remember (chunk_count size) as n eqn:En.
  assert (Hp' : fpos s = Nat.min (2048 * 0) (List.length file))
    by (rewrite Hp; reflexivity).
  assert (Hseq : seq 0 n = seq 0 k ++ k :: seq (S k) (n - S k)).
  { replace n with (k + S (n - S k))%nat at 1 by lia.
    rewrite seq_app. reflexivity. }
  rewrite range_offsets, <- En, Hseq, map_app. cbn [map].
  destruct (loop_acked size file Hsize k 0%nat s good (bad :: rest)
              (offset_of k :: map offset_of (seq (S k) (n - S k)))
              Hf Hp' ltac:(lia) (eq_sym Ek) Hack Hr)
    as (s1 & Hrun & Hf1 & Hp1 & _ & Hr1 & Ht1).
  rewrite Hrun. rewrite Nat.add_0_l in Hp1.
  pose proof (chunk_at file k s1 Hf1 Hp1) as Hc.
  destruct (loop_turn size (offset_of k) (map offset_of (seq (S k) (n - S k))) s1)
    as (s2 & Hturn & _ & _ & _ & Hr2 & Ht2).
  { rewrite Hc. apply (chunk_nonempty size file Hsize). lia. }
  rewrite Hr1 in Hturn, Hr2. cbn [tl] in Hr2.
  exists s2. split; [exact Hturn|]. split; [exact Hr2|].
  rewrite Ht2, Ht1, Hc, <- app_assoc.
  rewrite firstn_chunks by (rewrite <- Hsize; lia).
  rewrite seq_S, !map_app. reflexivity.
Qed.

Lemma do_update_send_aborts fw_version fw_size s s' :
  T3XUpdater.do_update_loop fw_size (Py.range 0 fw_size 2048)
    (mkState (fdata s) 0 (inbuf s) (comports s) (replies s) (trace s) (logged s))
  = (Return (Some false), s') ->
  T3XUpdater.do_update_send fw_version fw_size s = (Return false, s').
Proof.
  intros H. unfold T3XUpdater.do_update_send, bind, file_seek.
  rewrite H. reflexivity.
Qed.

(** C2: in the upload loop, the loss of the link while a chunk is sent is
    passed over exactly when the offset of that chunk is the size minus 256:
    the loop is then left normally, every chunk having been sent (that
    offset is the last one).  At any other offset, and on any answer other
    than [ack_jcxx], the loop returns [False] at once: nothing is sent after
    the failed chunk, which is not sent again, and [do_update_send] returns
    [False] without waiting, reconnecting or querying the device. *)
Theorem do_update_loop_disconnect file s good bad rest fw_version :
  fdata s = file ->
  fpos s = 0%nat ->
  replies s = good ++ bad :: rest ->
  Forall is_ack good ->
  let size := len file in
  let k := List.length good in
  (k < chunk_count size)%nat ->
  (bad = LinkLost -> offset_of k = size - 256 ->
   S k = chunk_count size
   /\ exists s',
       T3XUpdater.do_update_loop size (Py.range 0 size 2048) s = (Return None, s')
       /\ trace s' = trace s ++ map EvWrite (chunks file)
       /\ replies s' = rest)
  /\ ((bad = LinkLost /\ offset_of k <> size - 256
       \/ exists first r, bad = Rx first r /\ cleaned first r <> lit "ack_jcxx") ->
      exists s',
        T3XUpdater.do_update_loop size (Py.range 0 size 2048) s
        = (Return (Some false), s')
        /\ T3XUpdater.do_update_send fw_version size s = (Return false, s')
        /\ trace s' = trace s ++ map EvWrite (firstn (S k) (chunks file))
        /\ replies s' = rest).
Proof.
  intros Hf Hp Hr Hack size k Hk.
  destruct (loop_first_failure size file s good bad rest eq_refl Hf Hp Hr Hack Hk)
    as (s1 & Hrun & Hr1 & Ht1).
  fold k in Hrun, Ht1. split.
  - intros -> Hoff.
    assert (Hlast : S k = chunk_count size).
    { pose proof (lt_chunk_count size (S k)) as Hnext.
      unfold offset_of in *. lia. }
    split; [exact Hlast|].
    apply Z.eqb_eq in Hoff. rewrite Hoff in Hrun.
    rewrite <- Hlast, Nat.sub_diag in Hrun. cbn [seq map] in Hrun.
    exists s1. split; [exact Hrun|]. split; [|exact Hr1].
    rewrite Ht1. unfold chunks. fold size. rewrite <- Hlast.
    rewrite firstn_map, firstn_all2 by (rewrite length_seq; lia). reflexivity.
  - intros Hbad.
    assert (Hstop : T3XUpdater.do_update_loop size (Py.range 0 size 2048) s
                    = (Return (Some false), s1)).
    { destruct Hbad as [[-> Hoff]|(first & r & -> & Hnack)].
      - apply Z.eqb_neq in Hoff. rewrite Hoff in Hrun. exact Hrun.
      - apply bytes_eqb_neq in Hnack. rewrite Hnack in Hrun. exact Hrun. }
    exists s1. split; [exact Hstop|]. split; [|split; [exact Ht1|exact Hr1]].
    apply do_update_send_aborts.
    destruct s as [fd fp ib cp rp tr lg]. simpl in Hp. subst fp. exact Hstop.
Qed.

Lemma do_update_loop_chunk_sequence_witness :
  let size := len Sample.image_t3s in
  exists s',
    T3XUpdater.do_update_loop size (Py.range 0 size 2048)
      (Sample.uploading [Sample.ack; Sample.ack; Sample.ack])
    = (Return None, s')
    /\ trace s' = map EvWrite (chunks Sample.image_t3s).
Proof.
  intros size.
  destruct (do_update_loop_chunk_sequence Sample.image_t3s
              (Sample.uploading [Sample.ack; Sample.ack; Sample.ack])
              eq_refl eq_refl)
    as (_ & _ & _ & _ & Hall).
  destruct (Hall [Sample.ack; Sample.ack; Sample.ack] []) as (s' & Hrun & Ht & _).
  - reflexivity.
  - vm_compute. reflexivity.
  - repeat constructor; vm_compute; reflexivity.
  - exists s'. split; [exact Hrun|exact Ht].
Defined.

Lemma do_update_loop_disconnect_witness :
  let size := len Sample.image_t3s in
  exists s',
    T3XUpdater.do_update_loop size (Py.range 0 size 2048)
      (Sample.uploading [Sample.ack; Sample.ack; LinkLost])
    = (Return None, s')
    /\ trace s' = map EvWrite (chunks Sample.image_t3s).
Proof.
  intros size.
  destruct (do_update_loop_disconnect Sample.image_t3s
              (Sample.uploading [Sample.ack; Sample.ack; LinkLost])
              [Sample.ack; Sample.ack] LinkLost [] (lit "1234")
              eq_refl eq_refl eq_refl)
    as [Htail _].
  - repeat constructor; vm_compute; reflexivity.
  - vm_compute. lia.
  - destruct Htail as (_ & s' & Hrun & Ht & _).
    + reflexivity.
    + vm_compute. reflexivity.
    + exists s'. split; [exact Hrun|exact Ht].
Defined.

Lemma do_update_product_mismatch_raises_witness :
  let s := Sample.world [[Sample.t3x_port]]
             [Sample.answer (lit "JC_V1_" ++ [xff; xfe] ++ lit "_0999") 4;
              Sample.answer (lit "JC_User") 4] in
  exists s4,
    T3XUpdater.do_update Sample.image_t3s s = (Raise UnicodeDecodeError, s4)
    /\ main Sample.image_t3s s = (Raise UnicodeDecodeError, s4)
    /\ trace s4 = [EvOpen "/dev/ttyACM0"; EvWrite (lit "JC_version")]
    /\ logged s4
       = [(DEBUG, MsgDetected);
          (INFO, MsgUpdate (lit "T3S") (lit "1234") 4352);
          (DEBUG, MsgTx (lit "JC_version") false);
          (DEBUG, MsgRx (lit "JC_V1_" ++ [xff; xfe] ++ lit "_0999"))].
Proof.
  intros s.
  set (s1 := snd (T3XUpdater.parse_update Sample.image_t3s s)).
  set (s2 := snd (T3XUpdater.connect s1)).
  set (s3 := snd (T3XUpdater.get_product s2)).
  destruct (do_update_product_mismatch_raises Sample.image_t3s s (lit "T3S")
              (lit "1234") 4352 s1 s2 [xff; xfe] s3)
    as (Hrun & Hmain & _).
  - vm_compute. reflexivity.
  - discriminate.
  - discriminate.
  - vm_compute. reflexivity.
  - vm_compute. reflexivity.
  - discriminate.
  - vm_compute. reflexivity.
  - exists s3. split; [exact Hrun|]. split; [exact Hmain|].
    vm_compute. split; reflexivity.
Defined.

Lemma do_update_product_mismatch_reported_witness :
  let s := Sample.world [[Sample.t3x_port]]
             [Sample.answer (lit "JC_V1_T3M_0999") 4;
              Sample.answer (lit "JC_User") 4] in
  exists s4 port,
    T3XUpdater.do_update Sample.image_t3s s = (Return false, s4)
    /\ trace s4 = [EvOpen (device port); EvWrite (lit "JC_version")]
    /\ replies s4 = [Sample.answer (lit "JC_User") 4]
    /\ In (ERROR, MsgProductMismatch (lit "T3S") (lit "T3M")) (logged s4).
Proof.
  intros s.
  set (s1 := snd (T3XUpdater.parse_update Sample.image_t3s s)).
  set (s2 := snd (T3XUpdater.connect s1)).
  set (s3 := snd (T3XUpdater.get_product s2)).
  destruct (do_update_product_mismatch_reported Sample.image_t3s s (lit "T3S")
              (lit "1234") 4352 s1 s2 (lit "T3M") s3)
    as (s4 & port & Hrun & _ & Ht & Hrep & Hlog).
  - vm_compute. reflexivity.
  - discriminate.
  - discriminate.
  - vm_compute. reflexivity.
  - vm_compute. reflexivity.
  - discriminate.
  - vm_compute. reflexivity.
  - exists s4, port. split; [exact Hrun|]. split; [exact Ht|].
    split; [exact Hrep|]. rewrite Hlog. apply in_or_app. right. left.
    reflexivity.
Defined.

(** ** Further properties *)

(** X1: a file that passes the magic, size and checksum checks and whose
    product and version fields are UTF-8 is accepted: [parse_update] returns
    the last [_]-separated token of the product field, the version and the
    length of the file, and logs them.  The version is the four bytes at
    0x47 when the four bytes at 0x40 are [vers], and the four bytes at 0x40
    otherwise. *)
Theorem parse_update_accepts file s :
  magic_ok file ->
  len file = declared_size file ->
  CrcSpec.crc16 0xFFFF 0 (payload file) = stored_checksum file ->
  Py.utf8_valid (product_of file) = true ->
  Py.utf8_valid (version_of file) = true ->
  (exists s',
      T3XUpdater.parse_update file s
      = (Return (Some (product_of file), Some (version_of file), len file), s')
      /\ fdata s' = file
      /\ trace s' = trace s)
  /\ (slice file 0x40 4 = lit "vers" -> version_of file = slice file 0x47 4)
  /\ (slice file 0x40 4 <> lit "vers" -> version_of file = slice file 0x40 4)
  /\ 0x100 <= len file.
Proof.
  intros Hm Hs Hc Up Uv. rewrite <- crc16fn_bitwise in Hc.
  split; [|split; [|split]].
  - destruct (parse_update_valid file s Hm Hs Hc) as (s' & Hrun & Hf & _ & _ & Ht).
    rewrite Up, Uv in Hrun. exists s'. auto.
  - intros E. unfold version_of. apply bytes_eqb_eq in E. rewrite E. reflexivity.
  - intros E. unfold version_of. apply bytes_eqb_neq in E. rewrite E. reflexivity.
  - rewrite Hs. unfold declared_size, Py.int_from_bytes_big.
    assert (H : forall bs acc, 0 <= acc ->
                0 <= fold_left (fun acc x => acc * 256 + byte_val x) bs acc).
    { induction bs as [|x bs IH]; intros acc Hacc; [exact Hacc|].
      apply IH. pose proof (byte_val_fits x) as [H0 _]. lia. }
    specialize (H (slice file 96 4) 0 ltac:(lia)). lia.
Qed.

Lemma parse_update_accepts_witness :
  exists s',
    T3XUpdater.parse_update Sample.image_t3s (Sample.world [] [])
    = (Return (Some (lit "T3S"), Some (lit "1234"), 4352), s').
Proof.
  destruct (parse_update_accepts Sample.image_t3s (Sample.world [] []))
    as ((s' & Hrun & _) & _); try (vm_compute; reflexivity).
  exists s'. rewrite Hrun. vm_compute. reflexivity.
Defined.

(** X2: the checksum [parse_update] computes with [crcmod]'s table is the
    bit-by-bit CRC-16 with polynomial 0x8005 in reflected form, initial
    value 0xFFFF and no final xor; it is a 16-bit value. *)
Theorem crc16fn_is_reflected_crc16 data :
  T3XUpdater.crc16fn data = CrcSpec.crc16 0xFFFF 0 data
  /\ 0 <= T3XUpdater.crc16fn data < 2 ^ 16.
Proof.
  split; [apply crc16fn_bitwise|].
  rewrite crc16fn_bitwise. unfold CrcSpec.crc16. rewrite Z.lxor_0_r.
  assert (H : forall bs crc, fits 16 crc ->
              fits 16 (fold_left CrcSpec.step_byte bs crc)).
  { induction bs as [|x bs IH]; intros crc Hcrc; [exact Hcrc|].
    apply IH. apply step_byte_fits. exact Hcrc. }
  apply H. unfold fits. lia.
Qed.

(** ** [split], [rstrip] and the fields they cut out *)

Section Split.

Variable sep : byte.

Lemma byte_eqb_neq x y : x <> y -> Byte.eqb x y = false.
Proof.
  intros H. destruct (Byte.eqb x y) eqn:E; [|reflexivity].
  apply Byte.byte_dec_bl in E. contradiction.
Qed.

Lemma split_not_nil l : Py.split sep l <> [].
Proof.
  destruct l as [|x l]; simpl; [discriminate|].
  destruct (Byte.eqb x sep); [discriminate|].
  destruct (Py.split sep l); discriminate.
Qed.

Lemma split_length l : List.length (Py.split sep l) = S (count sep l).
Proof.
  unfold count. induction l as [|x l IH]; [reflexivity|].
  cbn [Py.split count_occ].
  destruct (Byte.byte_eq_dec x sep) as [->|Hne].
  - rewrite byte_eqb_refl. cbn [List.length]. rewrite IH. reflexivity.
  - rewrite (byte_eqb_neq _ _ Hne).
    destruct (Py.split sep l) as [|f fs] eqn:E.
    + exfalso. exact (split_not_nil l E).
    + cbn [List.length] in *. exact IH.
Qed.

Lemma split_fields_free l : Forall (fun f => ~ In sep f) (Py.split sep l).
Proof.
  induction l as [|x l IH]; simpl.
  - constructor; [intros []|constructor].
  - destruct (Byte.eqb x sep) eqn:E.
    + constructor; [intros []|exact IH].
    + destruct (Py.split sep l) as [|f fs].
      * constructor; [|constructor]. intros [H|[]]. subst x.
        rewrite byte_eqb_refl in E. discriminate.
      * inversion IH as [|? ? Hf Hfs]; subst. constructor; [|exact Hfs].
        intros [H|H]; [|exact (Hf H)]. subst x.
        rewrite byte_eqb_refl in E. discriminate.
Qed.

Lemma join_split l : join sep (Py.split sep l) = l.
Proof.
  induction l as [|x l IH]; [reflexivity|].
  cbn [Py.split]. destruct (Byte.eqb x sep) eqn:E.
  - apply Byte.byte_dec_bl in E. subst x.
    pose proof (split_not_nil l) as Hne.
    destruct (Py.split sep l) as [|f fs]; [congruence|].
    change (join sep ([] :: f :: fs)) with ([] ++ sep :: join sep (f :: fs)).
    rewrite IH. reflexivity.
  - pose proof (split_not_nil l) as Hne.
    destruct (Py.split sep l) as [|f fs]; [congruence|].
    destruct fs as [|g fs].
    + simpl in *. rewrite IH. reflexivity.
    + change (join sep ((x :: f) :: g :: fs))
        with (x :: (f ++ sep :: join sep (g :: fs))).
      change (join sep (f :: g :: fs)) with (f ++ sep :: join sep (g :: fs)) in IH.
      rewrite IH. reflexivity.
Qed.

Lemma split_free a : ~ In sep a -> Py.split sep a = [a].
Proof.
  induction a as [|x a IH]; intros H; [reflexivity|].
  cbn [Py.split]. rewrite byte_eqb_neq by (intros ->; apply H; left; reflexivity).
  rewrite IH by (intros Hin; apply H; right; exact Hin). reflexivity.
Qed.

Lemma split_app_sep a b :
  ~ In sep a -> Py.split sep (a ++ sep :: b) = a :: Py.split sep b.
Proof.
  induction a as [|x a IH]; intros H.
  - cbn [app Py.split]. rewrite byte_eqb_refl. reflexivity.
  - cbn [app Py.split].
    rewrite byte_eqb_neq by (intros ->; apply H; left; reflexivity).
    rewrite IH by (intros Hin; apply H; right; exact Hin). reflexivity.
Qed.

(** The last field is what follows the last separator. *)
Lemma split_last l :
  (~ In sep l /\ last (Py.split sep l) [] = l)
  \/ exists pre, l = pre ++ sep :: last (Py.split sep l) [].
Proof.
  induction l as [|x l IH].
  - left. split; [intros []|reflexivity].
  - cbn [Py.split]. destruct (Byte.eqb x sep) eqn:E.
    + apply Byte.byte_dec_bl in E. subst x. right.
      pose proof (split_not_nil l) as Hne.
      destruct (Py.split sep l) as [|f fs] eqn:Es; [congruence|].
      change (last ([] :: f :: fs) []) with (last (f :: fs) []).
      destruct IH as [[Hfree Hl]|[pre Hpre]].
      * exists []. rewrite Hl. reflexivity.
      * exists (sep :: pre). rewrite Hpre at 1. reflexivity.
    + pose proof (split_not_nil l) as Hne.
      destruct (Py.split sep l) as [|f fs] eqn:Es; [congruence|].
      destruct IH as [[Hfree Hl]|[pre Hpre]].
      * left. rewrite (split_free l Hfree) in Es. injection Es as <- <-.
        split; [|reflexivity].
        intros [H|H]; [|exact (Hfree H)]. subst x.
        rewrite byte_eqb_refl in E. discriminate.
      * right. exists (x :: pre).
        destruct fs as [|g fs].
        -- exfalso. pose proof (split_length l) as Hlen.
           rewrite Es in Hlen. cbn [List.length] in Hlen.
           assert (Hin : In sep l)
             by (rewrite Hpre; apply in_or_app; right; left; reflexivity).
           unfold count in Hlen.
           apply (count_occ_In Byte.byte_eq_dec) in Hin. lia.
        -- change (last ((x :: f) :: g :: fs) []) with (last (f :: g :: fs) []).
           rewrite Hpre at 1. reflexivity.
Qed.

Lemma split_fields_short l :
  Forall (fun f => (List.length f <= List.length l)%nat) (Py.split sep l).
Proof.
  induction l as [|x l IH]; simpl.
  - constructor; [apply Nat.le_refl|constructor].
  - destruct (Byte.eqb x sep).
    + constructor; [simpl; lia|].
      eapply Forall_impl; [|exact IH]. simpl. intros; lia.
    + destruct (Py.split sep l) as [|f fs].
      * constructor; [simpl; lia|constructor].
      * inversion IH as [|? ? Hf Hfs]; subst. constructor; [simpl; lia|].
        eapply Forall_impl; [|exact Hfs]. simpl. intros; lia.
Qed.

End Split.

Lemma rstrip_length c l : (List.length (Py.rstrip c l) <= List.length l)%nat.
Proof.
  induction l as [|x l IH]; [apply Nat.le_refl|].
  cbn [Py.rstrip]. destruct (Py.rstrip c l) as [|y r].
  - destruct (Byte.eqb x c); simpl; lia.
  - cbn [List.length] in *. lia.
Qed.

(** X3: [split] cuts at every separator and nowhere else: joining the
    fields with the separator gives the input back, no field holds the
    separator, and there is one field more than there are separators (so
    never none). *)
Theorem split_round_trip sep l :
  join sep (Py.split sep l) = l
  /\ Forall (fun f => ~ In sep f) (Py.split sep l)
  /\ List.length (Py.split sep l) = S (count sep l).
Proof.
  split; [apply join_split|]. split; [apply split_fields_free|apply split_length].
Qed.

(** ** [get_product] and [get_version] *)

(** X4: [get_product] sends the one [JC_version] query and returns the third
    [_]-separated field of the answer, which holds no underscore; it ends in
    [IndexError] exactly when the answer holds fewer than two underscores. *)
Theorem get_product_third_field s raw s1 :
  T3XUpdater.get_raw_version s = (Return raw, s1) ->
  ((count "_"%byte raw < 2)%nat ->
   T3XUpdater.get_product s = (Raise IndexError, s1))
  /\ ((2 <= count "_"%byte raw)%nat ->
      exists product,
        T3XUpdater.get_product s = (Return product, s1)
        /\ ~ In "_"%byte product)
  /\ (forall a b c tail,
        ~ In "_"%byte a -> ~ In "_"%byte b -> ~ In "_"%byte c ->
        raw = a ++ "_"%byte :: b ++ "_"%byte :: c
        \/ raw = a ++ "_"%byte :: b ++ "_"%byte :: c ++ "_"%byte :: tail ->
        T3XUpdater.get_product s = (Return c, s1))
  /\ trace s1 = trace s ++ [EvWrite (lit "JC_version")].
Proof.
  intros H.
  assert (Hrun : T3XUpdater.get_product s
                 = match nth_error (Py.split "_"%byte raw) 2 with
                   | Some field => (Return field, s1)
                   | None => (Raise IndexError, s1)
                   end).
  { unfold T3XUpdater.get_product, bind. rewrite H.
    destruct (nth_error (Py.split "_"%byte raw) 2); reflexivity. }
  pose proof (split_length "_"%byte raw) as Hlen.
  split; [|split; [|split]].
  - intros Hc. rewrite Hrun.
    replace (nth_error (Py.split "_"%byte raw) 2) with (@None bytes);
      [reflexivity|].
    symmetry. apply nth_error_None. lia.
  - intros Hc. rewrite Hrun.
    destruct (nth_error (Py.split "_"%byte raw) 2) as [field|] eqn:E.
    + exists field. split; [reflexivity|].
      apply nth_error_In in E.
      pose proof (split_fields_free "_"%byte raw) as Hfree.
      rewrite Forall_forall in Hfree. exact (Hfree field E).
    + apply nth_error_None in E. lia.
  - intros a b c tail Ha Hb Hc Hraw. rewrite Hrun.
    destruct Hraw as [->| ->].
    + rewrite (split_app_sep _ a _ Ha), (split_app_sep _ b _ Hb),
        (split_free _ c Hc). reflexivity.
    + rewrite (split_app_sep _ a _ Ha), (split_app_sep _ b _ Hb),
        (split_app_sep _ c _ Hc). reflexivity.
  - apply transfer_frame in H. tauto.
Qed.

Lemma get_product_third_field_witness :
  exists s1,
    T3XUpdater.get_product
      (Sample.world [] [Sample.answer (lit "JC_V1_T3S_0999") 4])
    = (Return (lit "T3S"), s1).
Proof.
  eexists.
  refine (proj1 (proj2 (proj2
            (get_product_third_field
               (Sample.world [] [Sample.answer (lit "JC_V1_T3S_0999") 4])
               (lit "JC_V1_T3S_0999") _ _)))
            (lit "JC") (lit "V1") (lit "T3S") (lit "0999") _ _ _ _).
  - vm_compute. reflexivity.
  - vm_compute. intuition discriminate.
  - vm_compute. intuition discriminate.
  - vm_compute. intuition discriminate.
  - right. reflexivity.
Defined.

(** X5: [get_version] sends the one [JC_version] query and returns the last
    four bytes of the answer, or the whole answer when it is shorter. *)
Theorem get_version_last_four s raw s1 :
  T3XUpdater.get_raw_version s = (Return raw, s1) ->
  exists version,
    T3XUpdater.get_version s = (Return version, s1)
    /\ (exists head, raw = head ++ version)
    /\ ((4 <= List.length raw)%nat -> List.length version = 4%nat)
    /\ ((List.length raw <= 4)%nat -> version = raw)
    /\ trace s1 = trace s ++ [EvWrite (lit "JC_version")].
Proof.
  intros H. exists (Py.last_n 4 raw). split.
  - unfold T3XUpdater.get_version, bind. rewrite H. reflexivity.
  - unfold Py.last_n. split; [|split; [|split]].
    + exists (firstn (List.length raw - 4) raw). symmetry. apply firstn_skipn.
    + intros Hl. rewrite length_skipn. lia.
    + intros Hl. replace (List.length raw - 4)%nat with 0%nat by lia. reflexivity.
    + apply transfer_frame in H. tauto.
Qed.

Lemma get_version_last_four_witness :
  exists version s1,
    T3XUpdater.get_version
      (Sample.world [] [Sample.answer (lit "JC_V1_T3S_0999") 4])
    = (Return version, s1)
    /\ List.length version = 4%nat.
Proof.
  destruct (get_version_last_four
              (Sample.world [] [Sample.answer (lit "JC_V1_T3S_0999") 4])
              (lit "JC_V1_T3S_0999")
              (exchanged (lit "JC_version") (Some (lit "JC_V1_T3S_0999")) []
                 (Sample.world [] [Sample.answer (lit "JC_V1_T3S_0999") 4])))
    as (version & Hrun & _ & Hlen & _).
  - vm_compute. reflexivity.
  - exists version. eexists. split; [exact Hrun|].
    apply Hlen. vm_compute. lia.
Defined.

(** ** [get_port] and [connect] *)

Lemma prefix_app a : forall b, String.prefix a (a ++ b)%string = true.
Proof.
  induction a as [|c a IH]; intros b; simpl.
  - destruct b; reflexivity.
  - destruct (Ascii.ascii_dec c c); [apply IH|congruence].
Qed.

Lemma prefix_split a : forall b,
  String.prefix a b = true -> exists tail, b = (a ++ tail)%string.
Proof.
  induction a as [|c a IH]; intros b H.
  - exists b. reflexivity.
  - destruct b as [|d b]; simpl in H; [discriminate|].
    destruct (Ascii.ascii_dec c d) as [->|]; [|discriminate].
    destruct (IH b H) as [tail ->]. exists tail. reflexivity.
Qed.

(** The ports [get_port] keeps are those whose serial number starts with
    [JCID_T3]. *)
Lemma is_t3x_spec p :
  T3XUpdater.is_t3x p = true
  <-> exists tail, serial_number p = Some ("JCID_T3" ++ tail)%string.
Proof.
  unfold T3XUpdater.is_t3x. split.
  - destruct (serial_number p) as [sn|]; [|discriminate].
    intros H. apply andb_prop in H. destruct H as [_ H].
    destruct (prefix_split _ _ H) as [tail ->]. exists tail. reflexivity.
  - intros [tail ->]. rewrite prefix_app. reflexivity.
Qed.

(** X6: [connect] scans the ports once and keeps those whose serial number
    starts with [JCID_T3].  With none or with more than one it logs the error
    and exits with status 1 without opening anything; with exactly one it
    opens that port, whatever other ports are attached, and fails only if
    the port cannot be opened. *)
Theorem connect_selects_one_port s found later :
  comports s = found :: later ->
  (forall p, In p (filter T3XUpdater.is_t3x found)
             <-> In p found
                 /\ exists tail, serial_number p = Some ("JCID_T3" ++ tail)%string)
  /\ (filter T3XUpdater.is_t3x found = [] ->
      exists s',
        T3XUpdater.connect s = (Raise (SystemExit 1), s')
        /\ trace s' = trace s
        /\ logged s' = logged s ++ [(ERROR, MsgNoDevice)])
  /\ ((2 <= List.length (filter T3XUpdater.is_t3x found))%nat ->
      exists s',
        T3XUpdater.connect s = (Raise (SystemExit 1), s')
        /\ trace s' = trace s
        /\ logged s' = logged s ++ [(ERROR, MsgMultiple)])
  /\ (forall p,
        filter T3XUpdater.is_t3x found = [p] ->
        exists s',
          T3XUpdater.connect s
          = (if opens p then Return tt else Raise SerialException, s')
          /\ trace s' = trace s ++ [EvOpen (device p)]
          /\ comports s' = later
          /\ replies s' = replies s).
Proof.
  intros Hscan.
  split; [|split; [|split]].
  - intros p. rewrite filter_In, is_t3x_spec. reflexivity.
  - intros Hnone.
    unfold T3XUpdater.connect, T3XUpdater.get_port, bind, list_ports_comports,
      log, raise.
    cbv beta iota zeta. rewrite Hscan. cbn [hd]. rewrite Hnone.
    change (1 <? len (@nil comport)) with false. cbv beta iota.
    eexists. split; [reflexivity|]. split; reflexivity.
  - intros Hmany.
    unfold T3XUpdater.connect, T3XUpdater.get_port, bind, list_ports_comports,
      log, raise.
    cbv beta iota zeta. rewrite Hscan. cbn [hd].
    replace (1 <? len (filter T3XUpdater.is_t3x found)) with true
      by (symmetry; apply Z.ltb_lt; unfold len; lia).
    cbv beta iota. eexists. split; [reflexivity|]. split; reflexivity.
  - intros p Hone.
    unfold T3XUpdater.connect, T3XUpdater.get_port, bind, list_ports_comports,
      serial_Serial, emit, log, raise, ret.
    cbv beta iota zeta. rewrite Hscan. cbn [hd]. rewrite Hone.
    change (1 <? len [p]) with false. cbv beta iota.
    destruct (opens p); eexists; (split; [reflexivity|]);
      cbn [trace comports replies tl]; rewrite ?Hscan; auto.
Qed.

Lemma connect_selects_one_port_witness :
  let other :=
    {| device := "/dev/ttyUSB0"; serial_number := Some "FTDI_1234"%string;
       opens := true |} in
  exists s',
    T3XUpdater.connect (Sample.world [[other; Sample.t3x_port]] [])
    = (Return tt, s')
    /\ trace s' = [EvOpen "/dev/ttyACM0"].
Proof.
  intros other.
  destruct (connect_selects_one_port
              (Sample.world [[other; Sample.t3x_port]] [])
              [other; Sample.t3x_port] [] eq_refl)
    as (_ & _ & _ & Hone).
  destruct (Hone Sample.t3x_port eq_refl) as (s' & Hrun & Ht & _).
  exists s'. split; [exact Hrun|exact Ht].
Defined.

(** ** What the device session leaves alone *)

Section Frame.

Import T3XUpdater.

Lemma frame_ret {A} (a : A) : frame (ret a).
Proof.
  intros s r s' H. inversion H; subst.
  split; [reflexivity|]. split; [reflexivity|].
  exists []. symmetry. apply app_nil_r.
Qed.

Lemma frame_raise {A} e : frame (@raise A e).
Proof.
  intros s r s' H. inversion H; subst.
  split; [reflexivity|]. split; [reflexivity|].
  exists []. symmetry. apply app_nil_r.
Qed.

Lemma frame_log l m : frame (log l m).
Proof.
  intros s r s' H. inversion H; subst. simpl.
  split; [reflexivity|]. split; [reflexivity|].
  exists []. symmetry. apply app_nil_r.
Qed.

Lemma frame_emit e : frame (emit e).
Proof.
  intros s r s' H. inversion H; subst. simpl.
  split; [reflexivity|]. split; [reflexivity|]. exists [e]. reflexivity.
Qed.

Lemma frame_decode bs : frame (decode bs).
Proof.
  unfold decode. destruct (Py.utf8_valid bs); [apply frame_ret|apply frame_raise].
Qed.

Lemma frame_bind {A B} (m : M A) (k : A -> M B) :
  frame m -> (forall a, frame (k a)) -> frame (bind m k).
Proof.
  intros Hm Hk s r s' H. unfold bind in H.
  destruct (m s) as [[a|e] s1] eqn:E.
  - destruct (Hm _ _ _ E) as (Hf & Hp & evs & Ht).
    destruct (Hk a _ _ _ H) as (Hf' & Hp' & evs' & Ht').
    split; [congruence|]. split; [congruence|].
    exists (evs ++ evs'). rewrite Ht', Ht, app_assoc. reflexivity.
  - inversion H; subst. exact (Hm _ _ _ E).
Qed.

Lemma frame_try_serial {A} (m : M A) : frame m -> frame (try_serial m).
Proof.
  intros Hm s r s' H. unfold try_serial in H.
  destruct (m s) as [[a|e] s1] eqn:E.
  - inversion H; subst. exact (Hm _ _ _ E).
  - destruct e; inversion H; subst; exact (Hm _ _ _ E).
Qed.

Lemma frame_try_finally {A} (m : M A) fin :
  frame m -> frame fin -> frame (try_finally m fin).
Proof.
  intros Hm Hfin s r s' H. unfold try_finally in H.
  destruct (m s) as [r1 s1] eqn:E.
  destruct (fin s1) as [[u|e] s2] eqn:F; inversion H; subst;
    destruct (Hm _ _ _ E) as (Hf & Hp & evs & Ht);
    destruct (Hfin _ _ _ F) as (Hf' & Hp' & evs' & Ht');
    (split; [congruence|]; split; [congruence|];
     exists (evs ++ evs'); rewrite Ht', Ht, app_assoc; reflexivity).
Qed.

Lemma frame_transfer data : frame (transfer data).
Proof.
  intros s r s' H. apply transfer_frame in H.
  destruct H as (Ht & _ & _ & Hf & Hp).
  split; [exact Hf|]. split; [exact Hp|]. exists [EvWrite data]. exact Ht.
Qed.

Lemma frame_connect : frame connect.
Proof.
  unfold connect, get_port, serial_Serial.
  apply frame_bind.
  - apply frame_bind.
    + intros s r s' H. inversion H; subst. simpl.
      split; [reflexivity|]. split; [reflexivity|].
      exists []. symmetry. apply app_nil_r.
    + intros found. cbv zeta.
      destruct (1 <? len (filter is_t3x found)).
      * apply frame_bind; [apply frame_log|intros; apply frame_raise].
      * destruct (filter is_t3x found).
        -- apply frame_bind; [apply frame_log|intros; apply frame_raise].
        -- apply frame_ret.
  - intros port. apply frame_bind; [apply frame_emit|]. intros _.
    destruct (opens port); [|apply frame_raise].
    intros s r s' H. inversion H; subst. simpl.
    split; [reflexivity|]. split; [reflexivity|].
    exists []. symmetry. apply app_nil_r.
Qed.

Lemma frame_get_version : frame get_version.
Proof.
  unfold get_version, get_raw_version.
  apply frame_bind; [apply frame_transfer|intros; apply frame_ret].
Qed.

Lemma frame_get_product : frame get_product.
Proof.
  unfold get_product, get_raw_version.
  apply frame_bind; [apply frame_transfer|]. intros raw.
  destruct (nth_error (Py.split "_"%byte raw) 2);
    [apply frame_ret|apply frame_raise].
Qed.

Lemma frame_enter_bootloader : frame enter_bootloader.
Proof.
  unfold enter_bootloader, get_identity, get_raw_version, time_sleep.
  apply frame_bind; [apply frame_transfer|]. intros identity.
  destruct (bytes_eqb identity (lit "JC_boot")); [apply frame_ret|].
  apply frame_bind.
  - destruct (bytes_eqb identity (lit "JC_User")); [|apply frame_ret].
    apply frame_bind; [apply frame_log|]. intros _.
    apply frame_bind.
    + apply frame_try_finally.
      * apply frame_bind.
        -- apply frame_try_serial.
           apply frame_bind; [apply frame_transfer|intros; apply frame_transfer].
        -- intros [ack|]; [|apply frame_log].
           destruct (negb (bytes_eqb ack (lit "JC_reset")));
             [apply frame_log|apply frame_ret].
      * apply frame_bind; [apply frame_emit|intros; apply frame_connect].
    + intros _. apply frame_bind; [apply frame_transfer|]. intros _.
      apply frame_bind; [apply frame_transfer|]. intros identity'.
      destruct (bytes_eqb identity' (lit "JC_boot")); apply frame_ret.
  - intros [v|]; [apply frame_ret|].
    apply frame_bind; [apply frame_log|intros; apply frame_ret].
Qed.

End Frame.

(** X7: the device session never touches the firmware file: whatever the
    device does and however they end, [connect], [transfer], [get_version],
    [get_product] and [enter_bootloader] leave the opened file and its read
    position as they were, and only add to what was done to the link. *)
Theorem session_keeps_file :
  frame T3XUpdater.connect
  /\ (forall data, frame (T3XUpdater.transfer data))
  /\ frame T3XUpdater.get_version
  /\ frame T3XUpdater.get_product
  /\ frame T3XUpdater.enter_bootloader.
Proof.
  split; [apply frame_connect|]. split; [apply frame_transfer|].
  split; [apply frame_get_version|].
  split; [apply frame_get_product|apply frame_enter_bootloader].
Qed.

(** ** What [parse_update] hands on *)

Lemma int_from_bytes_big_bound bs :
  0 <= Py.int_from_bytes_big bs < 256 ^ len bs.
Proof.
  unfold Py.int_from_bytes_big, len.
  assert (H : forall bs acc k,
             0 <= k -> 0 <= acc < 256 ^ k ->
             0 <= fold_left (fun acc x => acc * 256 + byte_val x) bs acc
             < 256 ^ (k + Z.of_nat (List.length bs))).
  { clear bs. induction bs as [|x bs IH]; intros acc k Hk Hacc.
    - cbn [fold_left List.length]. rewrite Z.add_0_r. exact Hacc.
    - cbn [fold_left List.length].
      replace (k + Z.of_nat (S (List.length bs)))
        with (k + 1 + Z.of_nat (List.length bs)) by lia.
      apply IH; [lia|].
      rewrite Z.pow_add_r by lia. change (256 ^ 1) with 256.
      pose proof (byte_val_fits x) as Hx. unfold fits in Hx.
      change (2 ^ 8) with 256 in Hx. nia. }
  specialize (H bs 0 0 ltac:(lia) ltac:(lia)). exact H.
Qed.

(** X8: what [parse_update] returns for a file it accepts: the size is the
    length of the file, between 0x100 and 0x100 + 0xFFFFFFFF; the product is
    what follows the last underscore of the product field stripped of its
    0xFF padding (the whole stripped field when it has no underscore), so it
    holds no underscore and at most 16 bytes; the version is four bytes
    long; both are UTF-8. *)
Theorem parse_update_result_shape file s fw_product fw_version fw_size s' :
  T3XUpdater.parse_update file s = (Return (Some fw_product, fw_version, fw_size), s') ->
  fw_size = len file
  /\ 0x100 <= fw_size <= 0x100 + 0xFFFFFFFF
  /\ ~ In "_"%byte fw_product
  /\ (List.length fw_product <= 16)%nat
  /\ (Py.rstrip xff (slice file 0x20 16) = fw_product
      \/ exists head,
           Py.rstrip xff (slice file 0x20 16) = head ++ "_"%byte :: fw_product)
  /\ (exists version,
        fw_version = Some version /\ List.length version = 4%nat
        /\ Py.utf8_valid version = true)
  /\ Py.utf8_valid fw_product = true.
Proof.
  intros H.
  destruct (parse_update_frame _ _ _ _ _ _ H)
    as (_ & Hs & _ & -> & -> & -> & Up & Uv & _).
  pose proof (int_from_bytes_big_bound (slice file 0x60 4)) as Hb.
  assert (Hl4 : len (slice file 0x60 4) <= 4).
  { unfold len, slice. rewrite length_firstn. lia. }
  assert (Hpow : 256 ^ len (slice file 0x60 4) <= 256 ^ 4)
    by (apply Z.pow_le_mono_r; unfold len in *; lia).
  change (256 ^ 4) with 4294967296 in Hpow.
  assert (Hsize : 0x100 <= len file <= 0x100 + 0xFFFFFFFF).
  { rewrite Hs. unfold declared_size. lia. }
  split; [reflexivity|]. split; [exact Hsize|].
  set (stripped := Py.rstrip xff (slice file 0x20 16)).
  assert (Hin : In (product_of file) (Py.split "_"%byte stripped)).
  { unfold product_of. fold stripped.
    pose proof (split_not_nil "_"%byte stripped) as Hne.
    destruct (Py.split "_"%byte stripped) as [|f fs]; [congruence|].
    apply (@exists_last _ (f :: fs)) in Hne. destruct Hne as (l' & a & E).
    rewrite E, last_last. apply in_or_app. right. left. reflexivity. }
  split.
  { pose proof (split_fields_free "_"%byte stripped) as Hfree.
    rewrite Forall_forall in Hfree. exact (Hfree _ Hin). }
  split.
  { pose proof (split_fields_short "_"%byte stripped) as Hshort.
    rewrite Forall_forall in Hshort. specialize (Hshort _ Hin).
    pose proof (rstrip_length xff (slice file 0x20 16)) as Hr. fold stripped in Hr.
    assert (List.length (slice file 0x20 16) <= 16)%nat
      by (unfold slice; rewrite length_firstn; lia).
    lia. }
  split.
  { destruct (split_last "_"%byte stripped) as [[_ E]|[head E]].
    - left. unfold product_of. fold stripped. symmetry. exact E.
    - right. exists head. unfold product_of. fold stripped. exact E. }
  split; [|exact Up].
  exists (version_of file). split; [reflexivity|]. split; [|exact Uv].
  unfold version_of, slice, len in *.
  destruct (bytes_eqb _ _); rewrite length_firstn, length_skipn; lia.
Qed.

Lemma parse_update_result_shape_witness :
  exists fw_product fw_version fw_size s',
    T3XUpdater.parse_update Sample.image_t3s (Sample.world [] [])
    = (Return (Some fw_product, fw_version, fw_size), s')
    /\ fw_size = len Sample.image_t3s
    /\ ~ In "_"%byte fw_product.
Proof.
  exists (lit "T3S"), (Some (lit "1234")), 4352,
    (snd (T3XUpdater.parse_update Sample.image_t3s (Sample.world [] []))).
  assert (Hrun : T3XUpdater.parse_update Sample.image_t3s (Sample.world [] [])
                 = (Return (Some (lit "T3S"), Some (lit "1234"), 4352),
                    snd (T3XUpdater.parse_update Sample.image_t3s
                           (Sample.world [] []))))
    by (vm_compute; reflexivity).
  split; [exact Hrun|].
  destruct (parse_update_result_shape _ _ _ _ _ _ Hrun) as (Hsize & _ & Hfree & _).
  split; [exact Hsize|exact Hfree].
Defined.

(** ** [do_update] and [main] on a file that is refused *)

(** X9: for a file that fails the magic, size or checksum check, and for an
    accepted file whose product is empty, [do_update] returns [False] and
    [main] exits with status 1 without scanning for a port, opening one or
    sending anything. *)
Theorem do_update_refuses_without_connecting file s :
  ~ (magic_ok file /\ len file = declared_size file
     /\ T3XUpdater.crc16fn (payload file) = stored_checksum file)
  \/ (magic_ok file /\ len file = declared_size file
      /\ T3XUpdater.crc16fn (payload file) = stored_checksum file
      /\ Py.utf8_valid (product_of file) = true
      /\ Py.utf8_valid (version_of file) = true
      /\ product_of file = []) ->
  exists s',
    T3XUpdater.do_update file s = (Return false, s')
    /\ main file s = (Raise (SystemExit 1), s')
    /\ trace s' = trace s
    /\ comports s' = comports s
    /\ replies s' = replies s.
Proof.
  intros H.
  assert (Hparse : exists p v n s',
             T3XUpdater.parse_update file s = (Return (p, v, n), s')
             /\ Py.truthy p = false
             /\ trace s' = trace s /\ comports s' = comports s
             /\ replies s' = replies s).
  { destruct H as [Hbad|(Hm & Hs & Hc & Up & Uv & Hempty)].
    - assert (Hkeep : forall r s', T3XUpdater.parse_update file s = (r, s') ->
                 trace s' = trace s /\ comports s' = comports s
                 /\ replies s' = replies s).
      { intros r s1 E. revert E. run_parse.
        repeat match goal with
               | |- context [if ?c then _ else _] => destruct c; run_parse
               end;
          intros E; inversion E; subst; auto. }
      destruct (bytes_eq_dec (slice file 0 4) (lit "JCID")) as [Hm|Hm].
      2:{ destruct (parse_update_wrong_magic file s Hm) as (s1 & E & _).
          exists None, None, 0, s1. split; [exact E|]. split; [reflexivity|].
          exact (Hkeep _ _ E). }
      destruct (Z.eq_dec (len file) (declared_size file)) as [Hs|Hs].
      2:{ destruct (parse_update_bad_size file s Hm Hs) as (s1 & E & _).
          exists None, None, 0, s1. split; [exact E|]. split; [reflexivity|].
          exact (Hkeep _ _ E). }
      destruct (Z.eq_dec (T3XUpdater.crc16fn (payload file)) (stored_checksum file))
        as [Hc|Hc]; [exfalso; apply Hbad; auto|].
      destruct (parse_update_bad_checksum file s Hm Hs Hc) as (s1 & E & _).
      exists None, None, 0, s1. split; [exact E|]. split; [reflexivity|].
      exact (Hkeep _ _ E).
    - destruct (parse_update_valid file s Hm Hs Hc) as (s1 & E & _ & Hp & Hr & Ht).
      rewrite Up, Uv in E. cbn [andb] in E.
      exists (Some (product_of file)), (Some (version_of file)), (len file), s1.
      split; [exact E|]. rewrite Hempty. auto. }
  destruct Hparse as (p & v & n & s1 & E & Hfalsy & Ht & Hc & Hr).
  assert (Hrun : T3XUpdater.do_update file s = (Return false, s1)).
  { unfold T3XUpdater.do_update. unfold bind at 1. rewrite E.
    cbv beta iota zeta. rewrite Hfalsy. reflexivity. }
  exists s1. split; [exact Hrun|]. split; [|auto].
  unfold main, bind. rewrite Hrun. reflexivity.
Qed.

Lemma do_update_refuses_without_connecting_witness :
  exists s',
    main (lit "not a firmware file") (Sample.world [[Sample.t3x_port]] [])
    = (Raise (SystemExit 1), s')
    /\ trace s' = []
    /\ comports s' = [[Sample.t3x_port]].
Proof.
  destruct (do_update_refuses_without_connecting (lit "not a firmware file")
              (Sample.world [[Sample.t3x_port]] []))
    as (s' & _ & Hmain & Ht & Hc & _).
  - left. intros [Hm _]. vm_compute in Hm. discriminate Hm.
  - exists s'. split; [exact Hmain|]. split; [exact Ht|exact Hc].
Defined.

(** ** [enter_bootloader] from user mode *)

Lemma connect_opens s found later p :
  comports s = found :: later ->
  filter T3XUpdater.is_t3x found = [p] ->
  opens p = true ->
  T3XUpdater.connect s = (Return tt, opened p later s).
Proof.
  intros Hscan Hone Hopen.
  unfold T3XUpdater.connect, T3XUpdater.get_port, bind, list_ports_comports,
    serial_Serial, emit, log, raise, ret, opened.
  cbv beta iota zeta. rewrite Hscan. cbn [hd tl]. rewrite Hone.
  change (1 <? len [p]) with false. cbv beta iota. rewrite Hopen.
  reflexivity.
Qed.

Lemma reset_phase s reset writes tail found later p :
  replies s = reset ++ tail ->
  reset_exchange reset writes ->
  comports s = found :: later ->
  filter T3XUpdater.is_t3x found = [p] ->
  opens p = true ->
  exists s1,
    try_finally
      (ack <- try_serial (raw <- T3XUpdater.transfer (lit "JC_version") ;;
                          T3XUpdater.transfer raw) ;;
       match ack with
       | Some ack =>
           if negb (bytes_eqb ack (lit "JC_reset"))
           then log WARNING MsgNoResetAck
           else ret tt
       | None => log WARNING MsgBootDisconnect
       end)
      (time_sleep 3 ;; T3XUpdater.connect) s
    = (Return tt, s1)
    /\ trace s1 = trace s ++ writes ++ [EvSleep 3; EvOpen (device p)]
    /\ replies s1 = tail
    /\ comports s1 = later.
Proof.
  intros Hr Hreset Hscan Hone Hopen.
  assert (Hfin : forall s0,
             comports s0 = found :: later ->
             (time_sleep 3 ;; T3XUpdater.connect) s0
             = (Return tt,
                opened p later
                  (mkState (fdata s0) (fpos s0) (inbuf s0) (comports s0)
                           (replies s0) (trace s0 ++ [EvSleep 3]) (logged s0)))).
  { intros s0 H0. unfold time_sleep, emit, bind.
    rewrite (connect_opens _ found later p); [reflexivity|exact H0|exact Hone|exact Hopen]. }
  unfold try_finally.
  destruct Hreset as [|first rest0 outcome]; cbn [app] in Hr.
  - unfold bind at 1, try_serial. unfold bind at 1.
    rewrite (transfer_LinkLost _ _ _ Hr). unfold log at 1. cbv beta iota.
    rewrite Hfin by exact Hscan.
    eexists. split; [reflexivity|]. simpl. rewrite <- !app_assoc. auto.
  - unfold bind at 1, try_serial. unfold bind at 1.
    rewrite (transfer_Rx _ _ _ _ _ Hr).
    destruct outcome as [fa ra|].
    + erewrite transfer_Rx by reflexivity.
      destruct (negb (bytes_eqb (cleaned fa ra) (lit "JC_reset")));
        unfold log, ret; cbv beta iota;
        (rewrite Hfin by exact Hscan);
        (eexists; split; [reflexivity|]; simpl; rewrite <- !app_assoc; auto).
    + erewrite transfer_LinkLost by reflexivity.
      unfold log; cbv beta iota.
      rewrite Hfin by exact Hscan.
      eexists. split; [reflexivity|]. simpl. rewrite <- !app_assoc. auto.
Qed.

(** X10: from user mode, the reset exchange decides nothing: whether the
    device acknowledges the reset command, answers something else, or the
    link is lost during the exchange, [enter_bootloader] then waits three
    seconds, reconnects, sends the identity query twice and returns whether
    the second answer is [JC_boot]. *)
Theorem enter_bootloader_from_user_mode s fi ri reset writes f1 r1 f2 r2 rest
        found later p :
  replies s = Rx fi ri :: reset ++ Rx f1 r1 :: Rx f2 r2 :: rest ->
  cleaned fi ri = lit "JC_User" ->
  reset_exchange reset writes ->
  comports s = found :: later ->
  filter T3XUpdater.is_t3x found = [p] ->
  opens p = true ->
  exists s',
    T3XUpdater.enter_bootloader s
    = (Return (bytes_eqb (cleaned f2 r2) (lit "JC_boot")), s')
    /\ trace s'
       = trace s ++ EvWrite (lit "JC_identity") :: writes
           ++ [EvSleep 3; EvOpen (device p);
               EvWrite (lit "JC_identity"); EvWrite (lit "JC_identity")]
    /\ replies s' = rest
    /\ comports s' = later.
Proof.
  intros Hr Hid Hreset Hscan Hone Hopen.
  unfold T3XUpdater.enter_bootloader, T3XUpdater.get_identity,
    T3XUpdater.get_raw_version.
  unfold bind at 1. rewrite (transfer_Rx _ _ _ _ _ Hr). rewrite Hid.
  change (bytes_eqb (lit "JC_User") (lit "JC_boot")) with false.
  change (bytes_eqb (lit "JC_User") (lit "JC_User")) with true.
  cbv beta iota.
  unfold bind at 1. unfold bind at 1. unfold log at 1. cbv beta iota.
  unfold bind at 1.
  match goal with
  | |- context [try_finally _ _ ?st] =>
      destruct (reset_phase st reset writes (Rx f1 r1 :: Rx f2 r2 :: rest)
                  found later p eq_refl Hreset Hscan Hone Hopen)
        as (s1 & Hphase & Ht1 & Hr1 & Hc1)
  end.
  rewrite Hphase. cbv beta iota.
  unfold bind at 1. rewrite (transfer_Rx _ _ _ _ _ Hr1).
  unfold bind at 1. erewrite transfer_Rx by reflexivity.
  destruct (bytes_eqb (cleaned f2 r2) (lit "JC_boot")); unfold ret, log;
    cbv beta iota;
    (eexists; split; [reflexivity|]; simpl; rewrite Ht1; simpl;
     rewrite <- !app_assoc; simpl; auto).
Qed.

Lemma enter_bootloader_from_user_mode_witness :
  exists s',
    T3XUpdater.enter_bootloader
      (Sample.world [[Sample.t3x_port]]
         (Sample.user_mode_script (Sample.answer (lit "JC_boot") 4)
                                  (Sample.answer (lit "JC_boot") 4)))
    = (Return true, s')
    /\ replies s' = []
    /\ comports s' = [].
Proof.
  destruct (enter_bootloader_from_user_mode
              (Sample.world [[Sample.t3x_port]]
                 (Sample.user_mode_script (Sample.answer (lit "JC_boot") 4)
                                          (Sample.answer (lit "JC_boot") 4)))
              (Some "J"%byte) (lit "C_User" ++ repeat x00 4)
              [Sample.answer (lit "JC_V1_T3S_0999") 4;
               Sample.answer (lit "JC_reset") 4]
              [EvWrite (lit "JC_version"); EvWrite (lit "JC_V1_T3S_0999")]
              (Some "J"%byte) (lit "C_boot" ++ repeat x00 4)
              (Some "J"%byte) (lit "C_boot" ++ repeat x00 4)
              [] [Sample.t3x_port] [] Sample.t3x_port)
    as (s' & Hrun & _ & Hr & Hc).
  - reflexivity.
  - vm_compute. reflexivity.
  - exact (reset_sent (Some "J"%byte) (lit "C_V1_T3S_0999" ++ repeat x00 4)
             (Sample.answer (lit "JC_reset") 4)).
  - reflexivity.
  - reflexivity.
  - reflexivity.
  - exists s'. split; [exact Hrun|]. split; [exact Hr|exact Hc].
Defined.

(** ** A successful update *)

Lemma bind_inv {A B} (m : M A) (k : A -> M B) s b s' :
  bind m k s = (Return b, s') ->
  exists a s1, m s = (Return a, s1) /\ k a s1 = (Return b, s').
Proof.
  unfold bind. destruct (m s) as [[a|e] s1]; intros H; [|discriminate].
  exists a, s1. split; [reflexivity|exact H].
Qed.

Lemma do_update_send_true file fw_version s s' :
  fdata s = file ->
  T3XUpdater.do_update_send fw_version (len file) s = (Return true, s') ->
  exists sl sa sb sc port,
    T3XUpdater.do_update_loop (len file) (Py.range 0 (len file) 2048)
                              (snd (file_seek 0 s))
    = (Return None, sl)
    /\ T3XUpdater.connect (snd (time_sleep 3 sl)) = (Return tt, sa)
    /\ T3XUpdater.get_identity sa = (Return (lit "JC_User"), sb)
    /\ T3XUpdater.get_version sb = (Return fw_version, sc)
    /\ s' = snd (log INFO MsgUpdateOk sc)
    /\ trace s'
       = trace s ++ map EvWrite (chunks file)
           ++ [EvSleep 3; EvOpen (device port);
               EvWrite (lit "JC_identity"); EvWrite (lit "JC_version")].
Proof.
  intros Hf H. unfold T3XUpdater.do_update_send in H.
  apply bind_inv in H. destruct H as ([] & s0 & Hseek & H).
  assert (Hs0 : s0 = snd (file_seek 0 s)) by (rewrite Hseek; reflexivity).
  apply bind_inv in H. destruct H as (returned & sl & Hloop & H).
  pose proof Hloop as Hrun.
  rewrite range_offsets in Hloop.
  destruct (loop_prefix (len file) file eq_refl _ 0%nat s0 _ _
              ltac:(subst s0; exact Hf) ltac:(subst s0; reflexivity)
              (Nat.le_refl _) Hloop)
    as (j & _ & Ht & Hall & Hres).
  destruct returned as [v|].
  { destruct Hres as [E|E]; [discriminate E|].
    inversion E; subst v. discriminate H. }
  rewrite (Hall eq_refl) in Ht. fold (chunks file) in Ht.
  apply bind_inv in H. destruct H as ([] & s2 & Hsleep & H).
  assert (Hs2 : s2 = snd (time_sleep 3 sl)) by (rewrite Hsleep; reflexivity).
  apply bind_inv in H. destruct H as ([] & s3 & Hconn & H).
  destruct (connect_frame _ _ Hconn) as (port & Ht3 & _ & _).
  apply bind_inv in H. destruct H as (identity & s4 & Hid & H).
  apply bind_inv in H. destruct H as (version & s5 & Hver & H).
  destruct (bytes_eqb identity (lit "JC_User")) eqn:Ei;
    [|discriminate H].
  destruct (bytes_eqb version fw_version) eqn:Ev; [|discriminate H].
  apply bytes_eqb_eq in Ei, Ev. subst identity version.
  cbn [andb negb] in H. apply bind_inv in H. destruct H as ([] & s6 & Hlog & H).
  inversion H; subst s6. clear H.
  assert (Hs' : s' = snd (log INFO MsgUpdateOk s5)) by (rewrite Hlog; reflexivity).
  assert (Ht5 : trace s5 = trace s4 ++ [EvWrite (lit "JC_version")]).
  { unfold T3XUpdater.get_version in Hver.
    apply bind_inv in Hver. destruct Hver as (raw & s5' & Hraw & Hret).
    inversion Hret; subst. apply transfer_frame in Hraw. tauto. }
  destruct (transfer_frame _ _ _ _ Hid) as (Ht4 & _).
  exists sl, s3, s4, s5, port.
  split; [rewrite <- Hs0; exact Hrun|].
  split; [rewrite <- Hs2; exact Hconn|].
  split; [exact Hid|]. split; [exact Hver|]. split; [exact Hs'|].
  rewrite Hs'. cbn [log snd trace].
  rewrite Ht5, Ht4, Ht3, Hs2. cbn [time_sleep emit snd trace].
  rewrite Ht, Hs0. cbn [file_seek snd trace].
  rewrite <- !app_assoc. reflexivity.
Qed.

Lemma enter_bootloader_true_trace s s' :
  T3XUpdater.enter_bootloader s = (Return true, s') ->
  exists boot, trace s' = trace s ++ boot /\ bootloader_entry boot.
Proof.
  intros H. unfold T3XUpdater.enter_bootloader in H.
  apply bind_inv in H. destruct H as (identity & s1 & Hid & H).
  destruct (transfer_frame _ _ _ _ Hid) as (Ht1 & _).
  destruct (bytes_eqb identity (lit "JC_boot")).
  { inversion H; subst s1. eexists. split; [exact Ht1|constructor]. }
  apply bind_inv in H. destruct H as (returned & s2 & Hbody & H).
  destruct returned as [v|].
  2:{ apply bind_inv in H. destruct H as (? & ? & _ & H). discriminate H. }
  inversion H; subst v s2. clear H.
  destruct (bytes_eqb identity (lit "JC_User")); [|discriminate Hbody].
  apply bind_inv in Hbody. destruct Hbody as ([] & s3 & Hlog & H).
  assert (Ht3 : trace s3 = trace s1) by (inversion Hlog; reflexivity).
  apply bind_inv in H. destruct H as ([] & s4 & Hreset & H).
  apply bind_inv in H. destruct H as (id1 & s5 & Hid1 & H).
  apply bind_inv in H. destruct H as (id2 & s6 & Hid2 & H).
  destruct (bytes_eqb id2 (lit "JC_boot")); [|discriminate H].
  inversion H; subst s6. clear H.
  destruct (transfer_frame _ _ _ _ Hid1) as (Ht5 & _).
  destruct (transfer_frame _ _ _ _ Hid2) as (Ht6 & _).
  unfold try_finally in Hreset.
  match type of Hreset with
  | (let (_, _) := ?m ?st in _) = _ => destruct (m st) as [r1 sx] eqn:Em
  end.
  destruct ((time_sleep 3 ;; T3XUpdater.connect) sx) as [[[]|e] sy] eqn:Efin;
    [|discriminate Hreset].
  assert (sy = s4) by (inversion Hreset; reflexivity). subst sy. clear Hreset.
  apply bind_inv in Efin. destruct Efin as ([] & sz & Hsleep & Hconn).
  assert (Htz : trace sz = trace sx ++ [EvSleep 3]) by (inversion Hsleep; reflexivity).
  destruct (connect_frame _ _ Hconn) as (port & Ht4 & _).
  assert (Hm : trace sx = trace s3 ++ [EvWrite (lit "JC_version")]
               \/ exists raw,
                   trace sx = trace s3 ++ [EvWrite (lit "JC_version"); EvWrite raw]).
  { unfold bind, try_serial, T3XUpdater.get_raw_version in Em.
    destruct (T3XUpdater.transfer (lit "JC_version") s3) as [[raw|e] sa] eqn:E1;
      apply transfer_frame in E1; destruct E1 as (Ta & _).
    - right. exists raw.
      destruct (T3XUpdater.transfer raw sa) as [[ack|e] sb] eqn:E2;
        apply transfer_frame in E2; destruct E2 as (Tb & _).
      + destruct (negb (bytes_eqb ack (lit "JC_reset")));
          inversion Em; subst sx; cbn [trace];
          rewrite Tb, Ta, <- app_assoc; reflexivity.
      + destruct e; inversion Em; subst sx; cbn [trace];
          rewrite Tb, Ta, <- app_assoc; reflexivity.
    - left. destruct e; inversion Em; subst sx; cbn [trace]; exact Ta. }
  destruct Hm as [Hm|(raw & Hm)].
  - eexists. split; [|apply (entry_reset_lost (device port))].
    rewrite Ht6, Ht5, Ht4, Htz, Hm, Ht3, Ht1, <- !app_assoc. reflexivity.
  - eexists. split; [|apply (entry_reset_sent raw (device port))].
    rewrite Ht6, Ht5, Ht4, Htz, Hm, Ht3, Ht1, <- !app_assoc. reflexivity.
Qed.

Lemma get_version_trace s r s' :
  T3XUpdater.get_version s = (r, s') ->
  trace s' = trace s ++ [EvWrite (lit "JC_version")].
Proof.
  unfold T3XUpdater.get_version, T3XUpdater.get_raw_version, bind.
  destruct (T3XUpdater.transfer (lit "JC_version") s) as [[raw|e] s1] eqn:E;
    apply transfer_frame in E; intros H; inversion H; subst; tauto.
Qed.

Lemma do_update_true_inv file s s' :
  T3XUpdater.do_update file s = (Return true, s') ->
  exists s1 s2 s3 raw_version s4 identity s5 s6 bl_version s7 bl_raw_version
         s8 s9,
    T3XUpdater.parse_update file s
    = (Return (Some (product_of file), Some (version_of file), len file), s1)
    /\ T3XUpdater.connect s1 = (Return tt, s2)
    /\ T3XUpdater.get_product s2 = (Return (product_of file), s3)
    /\ T3XUpdater.get_raw_version s3 = (Return raw_version, s4)
    /\ T3XUpdater.get_identity s4 = (Return identity, s5)
    /\ T3XUpdater.enter_bootloader s5 = (Return true, s6)
    /\ T3XUpdater.get_version s6 = (Return bl_version, s7)
    /\ T3XUpdater.get_raw_version (snd (log INFO (MsgBLVersion bl_version) s7))
       = (Return bl_raw_version, s8)
    /\ T3XUpdater.transfer
         (lit ("0x" ++ Py.format_08x (len file)) ++ skipn 8 bl_raw_version) s8
       = (Return (lit "update_jcxx"), s9)
    /\ T3XUpdater.do_update_send (version_of file) (len file) s9
       = (Return true, s')
    /\ fdata s9 = file.
Proof.
  intros H. unfold T3XUpdater.do_update in H.
  apply bind_inv in H.
  destruct H as ([[fw_product fw_version] fw_size] & s1 & Hparse & H).
  destruct fw_product as [[|x fw_product]|]; [discriminate H| |discriminate H].
  destruct fw_version as [[|y fw_version]|]; [discriminate H| |discriminate H].
  cbv beta iota zeta delta [Py.truthy andb negb] in H.
  destruct (parse_update_frame _ _ _ _ _ _ Hparse)
    as (_ & _ & _ & Hp & Hv & Hn & _ & _ & Hf1 & _ & _ & _).
  injection Hv as Hv. subst fw_size. rewrite Hp, Hv in *. clear Hp Hv.
  apply bind_inv in H. destruct H as ([] & s2 & Hconn & H).
  destruct (frame_connect _ _ _ Hconn) as (Hf2 & _).
  apply bind_inv in H. destruct H as (product & s3 & Hprod & H).
  destruct (frame_get_product _ _ _ Hprod) as (Hf3 & _).
  destruct (bytes_eqb (product_of file) product) eqn:Ep.
  2:{ cbv beta iota delta [negb] in H.
      apply bind_inv in H. destruct H as (? & ? & _ & H).
      apply bind_inv in H. destruct H as (? & ? & _ & H).
      apply bind_inv in H. destruct H as (? & ? & _ & H).
      discriminate H. }
  apply bytes_eqb_eq in Ep. subst product.
  cbv beta iota delta [negb] in H.
  apply bind_inv in H. destruct H as (raw_version & s4 & Hraw & H).
  destruct (frame_transfer _ _ _ _ Hraw) as (Hf4 & _).
  apply bind_inv in H. destruct H as (identity & s5 & Hid & H).
  destruct (frame_transfer _ _ _ _ Hid) as (Hf5 & _).
  apply bind_inv in H. destruct H as (entered & s6 & Hboot & H).
  destruct (frame_enter_bootloader _ _ _ Hboot) as (Hf6 & _).
  destruct entered; [|discriminate H].
  cbv beta iota delta [negb] in H.
  apply bind_inv in H. destruct H as (bl_version & s7 & Hblv & H).
  destruct (frame_get_version _ _ _ Hblv) as (Hf7 & _).
  apply bind_inv in H. destruct H as ([] & s7' & Hdec & H).
  unfold decode in Hdec.
  destruct (Py.utf8_valid bl_version); [|discriminate Hdec].
  inversion Hdec; subst s7'. clear Hdec.
  apply bind_inv in H. destruct H as ([] & s7' & Hlog & H).
  assert (Hs7 : s7' = snd (log INFO (MsgBLVersion bl_version) s7))
    by (rewrite Hlog; reflexivity).
  apply bind_inv in H. destruct H as (bl_raw_version & s8 & Hblr & H).
  destruct (frame_transfer _ _ _ _ Hblr) as (Hf8 & _).
  apply bind_inv in H. destruct H as ([] & s8' & Hdec2 & H).
  unfold decode in Hdec2.
  destruct (Py.utf8_valid (skipn 8 bl_raw_version)); [|discriminate Hdec2].
  inversion Hdec2; subst s8'. clear Hdec2.
  cbv zeta in H.
  apply bind_inv in H. destruct H as (ack & s9 & Hstart & H).
  destruct (frame_transfer _ _ _ _ Hstart) as (Hf9 & _).
  destruct (bytes_eqb ack (lit "update_jcxx")) eqn:Ea.
  2:{ cbv beta iota delta [negb] in H.
      apply bind_inv in H. destruct H as (? & ? & _ & H). discriminate H. }
  apply bytes_eqb_eq in Ea. subst ack.
  cbv beta iota delta [negb] in H.
  exists s1, s2, s3, raw_version, s4, identity, s5, s6, bl_version, s7,
    bl_raw_version, s8, s9.
  split; [exact Hparse|]. split; [exact Hconn|]. split; [exact Hprod|].
  split; [exact Hraw|]. split; [exact Hid|]. split; [exact Hboot|].
  split; [exact Hblv|]. split; [rewrite <- Hs7; exact Hblr|].
  split; [exact Hstart|]. split; [exact H|].
  rewrite Hf9, Hf8, Hs7. cbn [log snd fdata].
  rewrite Hf7, Hf6, Hf5, Hf4, Hf3, Hf2. exact Hf1.
Qed.

(** X11: [do_update] returns [True] only for a file that passes the magic,
    size and checksum checks, and only at the end of this run, each step
    starting in the world the step before left: the file is parsed, the
    port is opened, the device reports the product of the file, the raw
    version and the identity are queried, [enter_bootloader] returns
    [True], the bootloader's version is queried twice, the update-start
    command ([0x], the size of the file in hexadecimal, and what follows
    the first eight bytes of the bootloader's second version answer) is
    acknowledged with [update_jcxx], the upload loop runs to its end, and
    after a wait of three seconds and a reconnection the device answers the
    identity query with [JC_User] and the version query with the version of
    the file.  The link has then seen exactly: the opening of the port, the
    three queries, what entering the bootloader writes, the two version
    queries, the start command, every chunk of the file in order, the wait,
    the reopening and the two last queries. *)
Theorem do_update_success file s s' :
  T3XUpdater.do_update file s = (Return true, s') ->
  magic_ok file
  /\ len file = declared_size file
  /\ CrcSpec.crc16 0xFFFF 0 (payload file) = stored_checksum file
  /\ exists s1 s2 s3 raw_version s4 identity s5 s6 bl_version s7
            bl_raw_version s8 s9 sl sa sb sc port0 boot port,
       T3XUpdater.parse_update file s
       = (Return (Some (product_of file), Some (version_of file), len file), s1)
       /\ T3XUpdater.connect s1 = (Return tt, s2)
       /\ T3XUpdater.get_product s2 = (Return (product_of file), s3)
       /\ T3XUpdater.get_raw_version s3 = (Return raw_version, s4)
       /\ T3XUpdater.get_identity s4 = (Return identity, s5)
       /\ T3XUpdater.enter_bootloader s5 = (Return true, s6)
       /\ T3XUpdater.get_version s6 = (Return bl_version, s7)
       /\ T3XUpdater.get_raw_version
            (snd (log INFO (MsgBLVersion bl_version) s7))
          = (Return bl_raw_version, s8)
       /\ T3XUpdater.transfer
            (lit ("0x" ++ Py.format_08x (len file)) ++ skipn 8 bl_raw_version)
            s8
          = (Return (lit "update_jcxx"), s9)
       /\ T3XUpdater.do_update_loop (len file) (Py.range 0 (len file) 2048)
                                    (snd (file_seek 0 s9))
          = (Return None, sl)
       /\ T3XUpdater.connect (snd (time_sleep 3 sl)) = (Return tt, sa)
       /\ T3XUpdater.get_identity sa = (Return (lit "JC_User"), sb)
       /\ T3XUpdater.get_version sb = (Return (version_of file), sc)
       /\ s' = snd (log INFO MsgUpdateOk sc)
       /\ trace s6 = trace s5 ++ boot
       /\ bootloader_entry boot
       /\ trace s'
          = trace s
              ++ [EvOpen (device port0); EvWrite (lit "JC_version");
                  EvWrite (lit "JC_version"); EvWrite (lit "JC_identity")]
              ++ boot
              ++ [EvWrite (lit "JC_version"); EvWrite (lit "JC_version");
                  EvWrite (lit ("0x" ++ Py.format_08x (len file))
                             ++ skipn 8 bl_raw_version)]
              ++ map EvWrite (chunks file)
              ++ [EvSleep 3; EvOpen (device port);
                  EvWrite (lit "JC_identity"); EvWrite (lit "JC_version")].
Proof.
  intros H.
  destruct (do_update_true_inv _ _ _ H)
    as (s1 & s2 & s3 & raw_version & s4 & identity & s5 & s6 & bl_version & s7
        & bl_raw_version & s8 & s9
        & Hparse & Hconn & Hprod & Hraw & Hid & Hboot & Hblv & Hblr & Hstart
        & Hsend & Hfile).
  destruct (parse_update_frame _ _ _ _ _ _ Hparse)
    as (Hm & Hs & Hc & _ & _ & _ & _ & _ & _ & _ & _ & Ht1).
  rewrite crc16fn_bitwise in Hc.
  split; [exact Hm|]. split; [exact Hs|]. split; [exact Hc|].
  destruct (do_update_send_true _ _ _ _ Hfile Hsend)
    as (sl & sa & sb & sc & port & Hloop & Hre & Hida & Hvera & Hs' & Ht').
  destruct (enter_bootloader_true_trace _ _ Hboot) as (boot & Ht6 & Hentry).
  destruct (connect_frame _ _ Hconn) as (port0 & Ht2 & _).
  exists s1, s2, s3, raw_version, s4, identity, s5, s6, bl_version, s7,
    bl_raw_version, s8, s9, sl, sa, sb, sc, port0, boot, port.
  repeat (split; [eassumption|]).
  rewrite Ht'.
  destruct (transfer_frame _ _ _ _ Hstart) as (Ht9 & _).
  destruct (transfer_frame _ _ _ _ Hblr) as (Ht8 & _).
  cbn [log snd trace] in Ht8.
  pose proof (get_version_trace _ _ _ Hblv) as Ht7.
  destruct (transfer_frame _ _ _ _ Hid) as (Ht5 & _).
  destruct (transfer_frame _ _ _ _ Hraw) as (Ht4 & _).
  destruct (get_product_frame _ _ _ Hprod) as (Ht3 & _).
  rewrite Ht9, Ht8, Ht7, Ht6, Ht5, Ht4, Ht3, Ht2, Ht1.
  rewrite <- !app_assoc. reflexivity.
Qed.

Lemma do_update_success_witness :
  let s := Sample.world [[Sample.t3x_port]; [Sample.t3x_port]; [Sample.t3x_port]]
             Sample.update_script in
  fst (T3XUpdater.do_update Sample.image_t3s s) = Return true
  /\ CrcSpec.crc16 0xFFFF 0 (payload Sample.image_t3s)
     = stored_checksum Sample.image_t3s
  /\ exists s5 s6 boot,
       T3XUpdater.enter_bootloader s5 = (Return true, s6)
       /\ trace s6 = trace s5 ++ boot
       /\ bootloader_entry boot.
Proof.
  intros s.
  assert (Hrun : T3XUpdater.do_update Sample.image_t3s s
                 = (Return true, snd (T3XUpdater.do_update Sample.image_t3s s)))
    by (vm_compute; reflexivity).
  destruct (do_update_success _ _ _ Hrun)
    as (_ & _ & Hc
        & _ & _ & _ & _ & _ & _ & s5 & s6 & _ & _ & _ & _ & _ & _ & _ & _ & _
        & _ & boot & _
        & _ & _ & _ & _ & _ & Hboot & _ & _ & _ & _ & _ & _ & _ & _ & Ht6
        & Hentry & _).
  split; [rewrite Hrun; reflexivity|]. split; [exact Hc|].
  exists s5, s6, boot. split; [exact Hboot|]. split; [exact Ht6|exact Hentry].
Defined.

(** ** The update-start command *)

Lemma string_length_append a b :
  String.length (a ++ b) = (String.length a + String.length b)%nat.
Proof. induction a as [|c a IH]; simpl; [reflexivity|rewrite IH; reflexivity]. Qed.

Lemma zeros_length k : String.length (Py.zeros k) = k.
Proof. induction k as [|k IH]; simpl; [reflexivity|rewrite IH; reflexivity]. Qed.

Lemma lit_length str : List.length (lit str) = String.length str.
Proof.
  unfold lit, list_byte_of_string. rewrite length_map.
  induction str as [|c str IH]; simpl; [reflexivity|rewrite IH; reflexivity].
Qed.

Lemma lit_append a b : lit (a ++ b) = lit a ++ lit b.
Proof.
  unfold lit, list_byte_of_string. rewrite <- map_app. f_equal.
  induction a as [|c a IH]; simpl; [reflexivity|rewrite IH; reflexivity].
Qed.

Lemma of_pos_length k : forall p rest,
  Zpos p < 16 ^ Z.of_nat (S k) ->
  (String.length (HexString.Raw.of_pos p rest) <= S k + String.length rest)%nat.
Proof.
  induction k as [|k IH]; intros p rest H.
  - change (16 ^ Z.of_nat 1) with 16 in H.
    do 4 try destruct p as [p|p|]; try lia; cbn; lia.
  - rewrite Nat2Z.inj_succ, Z.pow_succ_r in H by lia.
    do 4 try destruct p as [p|p|];
      try (cbn; lia);
      (cbn [HexString.Raw.of_pos];
       etransitivity; [apply IH; lia|cbn [String.length]; lia]).
Qed.

Lemma lit_String c str : lit (String c str) = byte_of_ascii c :: lit str.
Proof. reflexivity. Qed.

Ltac hex_digit :=
  match goal with
  | |- context [hex_digit_value ?b] =>
      let v := eval vm_compute in (hex_digit_value b) in
      change (hex_digit_value b) with v
  end.

Lemma hex_value_from_of_pos k : forall p rest acc,
  Zpos p < 16 ^ Z.of_nat (S k) ->
  exists m,
    hex_value_from acc (lit (HexString.Raw.of_pos p rest))
    = hex_value_from (acc * 16 ^ Z.of_nat m + Zpos p) (lit rest).
Proof.
  induction k as [|k IH]; intros p rest acc H.
  - change (16 ^ Z.of_nat 1) with 16 in H. exists 1%nat.
    change (16 ^ Z.of_nat 1) with 16.
    do 4 try destruct p as [p|p|]; try lia;
      cbn [HexString.Raw.of_pos]; rewrite lit_String;
      cbn [hex_value_from]; hex_digit; cbv beta iota; f_equal; lia.
  - rewrite Nat2Z.inj_succ, Z.pow_succ_r in H by lia.
    do 4 try destruct p as [p|p|];
      try (exists 1%nat; change (16 ^ Z.of_nat 1) with 16;
           cbn [HexString.Raw.of_pos]; rewrite lit_String;
           cbn [hex_value_from]; hex_digit; cbv beta iota; f_equal; lia);
      (cbn [HexString.Raw.of_pos];
       match goal with
       | |- context [HexString.Raw.of_pos ?q ?r] =>
           destruct (IH q r acc ltac:(lia)) as (m & E)
       end;
       exists (S m); rewrite E, lit_String;
       cbn [hex_value_from]; hex_digit; cbv beta iota; f_equal;
       rewrite Nat2Z.inj_succ, Z.pow_succ_r by lia; lia).
Qed.

Lemma hex_value_from_zeros k d :
  hex_value_from 0 (lit (Py.zeros k ++ d)) = hex_value_from 0 (lit d).
Proof. induction k as [|k IH]; [reflexivity|exact IH]. Qed.

Lemma hex_digit_value_bound x v : hex_digit_value x = Some v -> 0 <= v < 16.
Proof.
  unfold hex_digit_value. cbv zeta.
  destruct ((48 <=? byte_val x) && (byte_val x <=? 57)) eqn:E1.
  - apply andb_prop in E1. intros H; inversion H. lia.
  - destruct ((97 <=? byte_val x) && (byte_val x <=? 102)) eqn:E2;
      [|discriminate].
    apply andb_prop in E2. intros H; inversion H. lia.
Qed.

Lemma hex_value_from_bound digits : forall acc v,
  0 <= acc ->
  hex_value_from acc digits = Some v ->
  acc * 16 ^ len digits <= v < (acc + 1) * 16 ^ len digits.
Proof.
  unfold len.
  induction digits as [|d digits IH]; intros acc v Hacc H.
  - inversion H; subst. cbn [List.length]. change (16 ^ Z.of_nat 0) with 1. lia.
  - cbn [hex_value_from] in H.
    destruct (hex_digit_value d) as [dv|] eqn:Ed; [|discriminate H].
    apply hex_digit_value_bound in Ed.
    apply IH in H; [|lia].
    cbn [List.length]. rewrite Nat2Z.inj_succ, Z.pow_succ_r by lia.
    assert (0 < 16 ^ Z.of_nat (List.length digits)) by (apply Z.pow_pos_nonneg; lia).
    nia.
Qed.

Lemma format_08x_digits n :
  0 <= n < 16 ^ 9 ->
  hex_value (lit (Py.format_08x n)) = Some n
  /\ List.length (lit (Py.format_08x n))
     = (if n <? 2 ^ 32 then 8%nat else 9%nat).
Proof.
  intros Hn.
  assert (Hfmt : Py.format_08x n
                 = (Py.zeros (8 - String.length (Py.hex_digits n))
                      ++ Py.hex_digits n)%string).
  { unfold Py.format_08x. cbv zeta.
    replace (n <? 0) with false by (symmetry; apply Z.ltb_ge; lia).
    cbn [String.length String.append]. rewrite Nat.sub_0_r. reflexivity. }
  assert (Hlen : (8 <= List.length (lit (Py.format_08x n)) <= 9)%nat).
  { rewrite lit_length, Hfmt, string_length_append, zeros_length.
    assert (String.length (Py.hex_digits n) <= 9)%nat.
    { destruct n as [|p|p]; [cbn; lia| |lia]. cbn [Py.hex_digits].
      pose proof (of_pos_length 8 p "" ltac:(lia)) as H.
      cbn [String.length] in H. lia. }
    lia. }
  assert (Hval : hex_value_from 0 (lit (Py.format_08x n)) = Some n).
  { rewrite Hfmt, hex_value_from_zeros.
    destruct n as [|p|p]; [reflexivity| |lia]. cbn [Py.hex_digits].
    destruct (hex_value_from_of_pos 8 p "" 0 ltac:(lia)) as (m & E).
    rewrite E. reflexivity. }
  split.
  - destruct (lit (Py.format_08x n)) eqn:El; [cbn in Hlen; lia|exact Hval].
  - destruct (n <? 2 ^ 32) eqn:E.
    + apply Z.ltb_lt in E.
      rewrite lit_length, Hfmt, string_length_append, zeros_length.
      assert (String.length (Py.hex_digits n) <= 8)%nat.
      { destruct n as [|p|p]; [cbn; lia| |lia]. cbn [Py.hex_digits].
        pose proof (of_pos_length 7 p "" ltac:(exact E)) as H.
        cbn [String.length] in H. lia. }
      lia.
    + apply Z.ltb_ge in E.
      apply hex_value_from_bound in Hval; [|lia]. unfold len in Hval.
      destruct (Nat.eq_dec (List.length (lit (Py.format_08x n))) 8) as [E8|];
        [|lia].
      rewrite E8 in Hval. change (16 ^ Z.of_nat 8) with (2 ^ 32) in Hval. lia.
Qed.

Lemma declared_size_bound file : 0 <= declared_size file < 16 ^ 9.
Proof.
  unfold declared_size, slice.
  pose proof (int_from_bytes_big_bound (firstn 4 (skipn 96 file))) as H.
  assert (Hl : len (firstn 4 (skipn 96 file)) <= 4).
  { unfold len. pose proof (firstn_le_length 4 (skipn 96 file)). lia. }
  assert (256 ^ len (firstn 4 (skipn 96 file)) <= 256 ^ 4)
    by (apply Z.pow_le_mono_r; unfold len in *; lia).
  change (256 ^ 4) with 4294967296 in *. change (16 ^ 9) with 68719476736. lia.
Qed.

(** X12: in every run of [do_update] that returns [True], the write that
    comes right before the chunks of the file (the update-start command) is
    the two bytes [0x], then lower-case hexadecimal digits, and nothing but
    such digits, that write the length of the file, eight of them for a
    file below 2^32 bytes and nine otherwise, then the rest of the
    command. *)
Theorem update_start_command file s s' :
  T3XUpdater.do_update file s = (Return true, s') ->
  exists before digits tail port,
    trace s'
    = trace s ++ before
        ++ EvWrite (lit "0x" ++ digits ++ tail)
        :: map EvWrite (chunks file)
        ++ [EvSleep 3; EvOpen (device port);
            EvWrite (lit "JC_identity"); EvWrite (lit "JC_version")]
    /\ hex_value digits = Some (len file)
    /\ List.length digits = (if len file <? 2 ^ 32 then 8%nat else 9%nat).
Proof.
  intros H.
  destruct (do_update_true_inv _ _ _ H)
    as (s1 & s2 & s3 & raw_version & s4 & identity & s5 & s6 & bl_version & s7
        & bl_raw_version & s8 & s9
        & Hparse & Hconn & Hprod & Hraw & Hid & Hboot & Hblv & Hblr & Hstart
        & Hsend & Hfile).
  destruct (parse_update_frame _ _ _ _ _ _ Hparse)
    as (_ & Hs & _ & _ & _ & _ & _ & _ & _ & _ & _ & Ht1).
  destruct (do_update_send_true _ _ _ _ Hfile Hsend)
    as (sl & sa & sb & sc & port & _ & _ & _ & _ & _ & Ht').
  destruct (format_08x_digits (len file)) as (Hval & Hlen).
  { rewrite Hs. apply declared_size_bound. }
  destruct (transfer_frame _ _ _ _ Hstart) as (Ht9 & _).
  assert (Hpre : exists before, trace s8 = trace s ++ before).
  { destruct (frame_connect _ _ _ Hconn) as (_ & _ & e2 & Ht2).
    destruct (frame_get_product _ _ _ Hprod) as (_ & _ & e3 & Ht3).
    destruct (frame_transfer _ _ _ _ Hraw) as (_ & _ & e4 & Ht4).
    destruct (frame_transfer _ _ _ _ Hid) as (_ & _ & e5 & Ht5).
    destruct (frame_enter_bootloader _ _ _ Hboot) as (_ & _ & e6 & Ht6).
    destruct (frame_get_version _ _ _ Hblv) as (_ & _ & e7 & Ht7).
    destruct (frame_transfer _ _ _ _ Hblr) as (_ & _ & e8 & Ht8).
    cbn [log snd trace] in Ht8.
    exists (e2 ++ e3 ++ e4 ++ e5 ++ e6 ++ e7 ++ e8).
    rewrite Ht8, Ht7, Ht6, Ht5, Ht4, Ht3, Ht2, Ht1, <- !app_assoc.
    reflexivity. }
  destruct Hpre as (before & Ht8).
  exists before, (lit (Py.format_08x (len file))), (skipn 8 bl_raw_version), port.
  split; [|split; [exact Hval|exact Hlen]].
  rewrite Ht', Ht9, Ht8. rewrite lit_append, <- !app_assoc. reflexivity.
Qed.

Lemma update_start_command_witness :
  let s := Sample.world [[Sample.t3x_port]; [Sample.t3x_port]; [Sample.t3x_port]]
             Sample.update_script in
  fst (T3XUpdater.do_update Sample.image_t3s s) = Return true
  /\ exists digits,
       hex_value digits = Some 4352 /\ List.length digits = 8%nat.
Proof.
  intros s.
  assert (Hrun : T3XUpdater.do_update Sample.image_t3s s
                 = (Return true, snd (T3XUpdater.do_update Sample.image_t3s s)))
    by (vm_compute; reflexivity).
  destruct (update_start_command _ _ _ Hrun)
    as (_ & digits & _ & _ & _ & Hval & Hlen).
  split; [rewrite Hrun; reflexivity|].
  exists digits. split; [exact Hval|exact Hlen].
Defined.

(** ** When [enter_bootloader] reports success *)

(** X13: [enter_bootloader] returns [True] only right after the device has
    answered an identity query with [JC_boot]: the world it leaves is the
    one that query left. *)
Theorem enter_bootloader_true_after_boot_answer s s' :
  T3XUpdater.enter_bootloader s = (Return true, s') ->
  exists sa,
    T3XUpdater.get_identity sa = (Return (lit "JC_boot"), s')
    /\ exists events, trace sa = trace s ++ events.
Proof.
  intros H. unfold T3XUpdater.enter_bootloader in H.
  apply bind_inv in H. destruct H as (identity & s1 & Hid & H).
  destruct (bytes_eqb identity (lit "JC_boot")) eqn:Eb.
  - apply bytes_eqb_eq in Eb. subst identity. inversion H; subst s1.
    exists s. split; [exact Hid|]. exists []. symmetry. apply app_nil_r.
  - apply bind_inv in H. destruct H as (returned & s2 & Hbody & H).
    destruct returned as [v|].
    2:{ apply bind_inv in H. destruct H as (? & ? & _ & H). discriminate H. }
    inversion H; subst v s2. clear H.
    destruct (bytes_eqb identity (lit "JC_User")); [|discriminate Hbody].
    apply bind_inv in Hbody. destruct Hbody as ([] & s3 & Hlog & H).
    apply bind_inv in H. destruct H as ([] & s4 & Hreset & H).
    apply bind_inv in H. destruct H as (id1 & s5 & Hid1 & H).
    apply bind_inv in H. destruct H as (id2 & s6 & Hid2 & H).
    destruct (bytes_eqb id2 (lit "JC_boot")) eqn:E2; [|discriminate H].
    apply bytes_eqb_eq in E2. subst id2. inversion H; subst s6.
    exists s5. split; [exact Hid2|].
    destruct (frame_transfer _ _ _ _ Hid) as (_ & _ & ev1 & Ht1).
    destruct (frame_log _ _ _ _ _ Hlog) as (_ & _ & ev3 & Ht3).
    assert (Hfr : frame
              (try_finally
                 (ack <- try_serial
                           (raw <- T3XUpdater.get_raw_version ;;
                            T3XUpdater.transfer raw) ;;
                  match ack with
                  | Some ack =>
                      if negb (bytes_eqb ack (lit "JC_reset"))
                      then log WARNING MsgNoResetAck
                      else ret tt
                  | None => log WARNING MsgBootDisconnect
                  end)
                 (time_sleep 3 ;; T3XUpdater.connect))).
    { apply frame_try_finally.
      - apply frame_bind.
        + apply frame_try_serial. apply frame_bind;
            [apply frame_transfer|intros; apply frame_transfer].
        + intros [ack|]; [|apply frame_log].
          destruct (negb (bytes_eqb ack (lit "JC_reset")));
            [apply frame_log|apply frame_ret].
      - apply frame_bind; [apply frame_emit|intros; apply frame_connect]. }
    destruct (Hfr _ _ _ Hreset) as (_ & _ & ev4 & Ht4).
    destruct (frame_transfer _ _ _ _ Hid1) as (_ & _ & ev5 & Ht5).
    exists (ev1 ++ ev3 ++ ev4 ++ ev5).
    rewrite Ht5, Ht4, Ht3, Ht1, <- !app_assoc. reflexivity.
Qed.

Lemma enter_bootloader_true_after_boot_answer_witness :
  exists sa s',
    T3XUpdater.get_identity sa = (Return (lit "JC_boot"), s')
    /\ replies s' = [].
Proof.
  set (s := Sample.world [[Sample.t3x_port]]
              (Sample.user_mode_script (Rx None [])
                                       (Sample.answer (lit "JC_boot") 4))).
  assert (Hrun : T3XUpdater.enter_bootloader s
                 = (Return true, snd (T3XUpdater.enter_bootloader s)))
    by (vm_compute; reflexivity).
  destruct (enter_bootloader_true_after_boot_answer _ _ Hrun) as (sa & Hid & _).
  exists sa, (snd (T3XUpdater.enter_bootloader s)).
  split; [exact Hid|]. vm_compute. reflexivity.
Defined.

(** ** The check after the upload *)

(** X14: once every chunk has been acknowledged, [do_update_send] waits
    three seconds, reconnects, asks for the identity and the version, and
    returns whether the identity is [JC_User] and the last four bytes of the
    version answer are the version of the image. *)
Theorem do_update_send_verifies file s fw_version good fi ri fv rv rest
        found later p :
  fdata s = file ->
  replies s = good ++ Rx fi ri :: Rx fv rv :: rest ->
  List.length good = chunk_count (len file) ->
  Forall is_ack good ->
  comports s = found :: later ->
  filter T3XUpdater.is_t3x found = [p] ->
  opens p = true ->
  exists s',
    T3XUpdater.do_update_send fw_version (len file) s
    = (Return (bytes_eqb (cleaned fi ri) (lit "JC_User")
               && bytes_eqb (Py.last_n 4 (cleaned fv rv)) fw_version), s')
    /\ trace s'
       = trace s ++ map EvWrite (chunks file)
           ++ [EvSleep 3; EvOpen (device p);
               EvWrite (lit "JC_identity"); EvWrite (lit "JC_version")]
    /\ replies s' = rest.
Proof.
  intros Hf Hr Hlen Hack Hscan Hone Hopen.
  unfold T3XUpdater.do_update_send.
  unfold bind at 1. unfold file_seek. cbv beta iota.
  rewrite range_offsets.
  match goal with
  | |- context [bind (T3XUpdater.do_update_loop _ _) _ ?st] =>
      destruct (loop_acked (len file) file eq_refl (chunk_count (len file)) 0%nat
                  st good (Rx fi ri :: Rx fv rv :: rest) []
                  Hf eq_refl (Nat.le_refl _) Hlen Hack Hr)
        as (s1 & Hloop & _ & _ & Hc1 & Hr1 & Ht1)
  end.
  rewrite app_nil_r in Hloop. cbn [T3XUpdater.do_update_loop] in Hloop.
  unfold ret in Hloop.
  unfold bind at 1. rewrite Hloop. cbv beta iota.
  unfold bind at 1. unfold time_sleep, emit. cbv beta iota.
  unfold bind at 1.
  erewrite (connect_opens _ found later p);
    [|cbn [comports]; rewrite Hc1; exact Hscan|exact Hone|exact Hopen].
  cbv beta iota.
  unfold T3XUpdater.get_identity, T3XUpdater.get_version,
    T3XUpdater.get_raw_version.
  unfold bind at 1.
  erewrite transfer_Rx by (cbn [replies opened]; exact Hr1).
  unfold bind at 1. unfold bind at 1.
  erewrite transfer_Rx by reflexivity.
  unfold ret at 1. cbv beta iota.
  destruct (bytes_eqb (cleaned fi ri) (lit "JC_User"));
    destruct (bytes_eqb (Py.last_n 4 (cleaned fv rv)) fw_version);
    cbn [andb negb]; unfold bind, log, ret;
    (eexists; split; [reflexivity|]; cbn [trace replies exchanged opened];
     rewrite Ht1; cbn [trace]; rewrite <- !app_assoc; auto).
Qed.

Lemma do_update_send_verifies_witness :
  exists s',
    T3XUpdater.do_update_send (lit "1234") (len Sample.image_t3s)
      (mkState Sample.image_t3s 0 (None, []) [[Sample.t3x_port]]
         [Sample.ack; Sample.ack; Sample.ack;
          Sample.answer (lit "JC_User") 4;
          Sample.answer (lit "JC_V1_T3S_1234") 4] [] [])
    = (Return true, s')
    /\ replies s' = [].
Proof.
  destruct (do_update_send_verifies Sample.image_t3s
              (mkState Sample.image_t3s 0 (None, []) [[Sample.t3x_port]]
                 [Sample.ack; Sample.ack; Sample.ack;
                  Sample.answer (lit "JC_User") 4;
                  Sample.answer (lit "JC_V1_T3S_1234") 4] [] [])
              (lit "1234") [Sample.ack; Sample.ack; Sample.ack]
              (Some "J"%byte) (lit "C_User" ++ repeat x00 4)
              (Some "J"%byte) (lit "C_V1_T3S_1234" ++ repeat x00 4)
              [] [Sample.t3x_port] [] Sample.t3x_port)
    as (s' & Hrun & _ & Hr).
  - reflexivity.
  - reflexivity.
  - vm_compute. reflexivity.
  - repeat constructor; vm_compute; reflexivity.
  - reflexivity.
  - reflexivity.
  - reflexivity.
  - exists s'. split; [|exact Hr]. rewrite Hrun. vm_compute. reflexivity.
Defined.

(** ** Which fields decode *)

Lemma in_range_le lo hi x : Py.in_range lo hi x = true -> byte_val x <= hi.
Proof.
  unfold Py.in_range. intros H. apply andb_prop in H. destruct H as [_ H].
  apply Z.leb_le. exact H.
Qed.

Lemma ascii_utf8_valid bs :
  Forall (fun x => byte_val x <= 0x7F) bs -> Py.utf8_valid bs = true.
Proof.
  induction 1 as [|x bs Hx _ IH]; [reflexivity|].
  cbn [Py.utf8_valid].
  replace (Py.in_range 0 127 x) with true; [exact IH|].
  symmetry. unfold Py.in_range. apply andb_true_intro. split.
  - apply Z.leb_le. pose proof (byte_val_fits x) as [H0 _]. exact H0.
  - apply Z.leb_le. exact Hx.
Qed.

(** No byte above 0xF4 occurs in UTF-8. *)
Lemma utf8_valid_bytes n : forall bs,
  (List.length bs <= n)%nat ->
  Py.utf8_valid bs = true ->
  Forall (fun x => byte_val x <= 0xF4) bs.
Proof.
  induction n as [|n IH]; intros bs Hlen H.
  - destruct bs; [constructor|simpl in Hlen; lia].
  - destruct bs as [|b0 t0]; [constructor|].
    cbn [List.length] in Hlen. cbn [Py.utf8_valid] in H.
    destruct (Py.in_range 0 127 b0) eqn:E0.
    { constructor; [apply in_range_le in E0; lia|apply IH; [lia|exact H]]. }
    destruct t0 as [|b1 t1]; [discriminate H|]. cbn [List.length] in Hlen.
    destruct (Py.in_range 194 223 b0) eqn:E1.
    { apply andb_prop in H. destruct H as [Hc1 H].
      apply in_range_le in E1, Hc1.
      repeat (constructor; [lia|]). apply IH; [lia|exact H]. }
    destruct t1 as [|b2 t2]; [discriminate H|]. cbn [List.length] in Hlen.
    destruct (Py.in_range 224 239 b0) eqn:E2.
    { apply andb_prop in H. destruct H as [H Hv].
      apply andb_prop in H. destruct H as [Hx Hc2].
      apply in_range_le in E2, Hc2.
      assert (Hb1 : byte_val b1 <= 0xBF).
      { destruct (Py.in_range 224 224 b0); [apply in_range_le in Hx; lia|].
        destruct (Py.in_range 237 237 b0); apply in_range_le in Hx; lia. }
      repeat (constructor; [lia|]). apply IH; [lia|exact Hv]. }
    destruct t2 as [|b3 t3]; [discriminate H|]. cbn [List.length] in Hlen.
    apply andb_prop in H. destruct H as [H Hv].
    apply andb_prop in H. destruct H as [H Hc3].
    apply andb_prop in H. destruct H as [H Hc2].
    apply andb_prop in H. destruct H as [Hb0 Hx].
    apply in_range_le in Hb0, Hc2, Hc3.
    assert (Hb1 : byte_val b1 <= 0xBF).
    { destruct (Py.in_range 240 240 b0); [apply in_range_le in Hx; lia|].
      destruct (Py.in_range 244 244 b0); apply in_range_le in Hx; lia. }
    repeat (constructor; [lia|]). apply IH; [lia|exact Hv].
Qed.

Lemma rstrip_incl c l x : In x (Py.rstrip c l) -> In x l.
Proof.
  induction l as [|y l IH]; [intros []|].
  cbn [Py.rstrip]. destruct (Py.rstrip c l) as [|z r].
  - destruct (Byte.eqb y c); [intros []|].
    intros [->|[]]. left. reflexivity.
  - intros [->|H]; [left; reflexivity|right; apply IH; exact H].
Qed.

Lemma split_incl sep l : forall f x, In f (Py.split sep l) -> In x f -> In x l.
Proof.
  induction l as [|y l IH]; intros f x Hf Hx.
  - destruct Hf as [<-|[]]. exact Hx.
  - cbn [Py.split] in Hf. destruct (Byte.eqb y sep).
    + destruct Hf as [<-|Hf]; [destruct Hx|].
      right. exact (IH f x Hf Hx).
    + destruct (Py.split sep l) as [|g gs] eqn:E.
      * destruct Hf as [<-|[]]. destruct Hx as [->|[]]. left. reflexivity.
      * destruct Hf as [<-|Hf].
        -- destruct Hx as [->|Hx]; [left; reflexivity|].
           right. apply (IH g x); [left; reflexivity|exact Hx].
        -- right. apply (IH f x); [right; exact Hf|exact Hx].
Qed.

(** X15: which files [parse_update] can take: a file that passes the magic,
    size and checksum checks is returned with its product and version when
    the product field (without its 0xFF padding) and the version are ASCII;
    it ends in [UnicodeDecodeError] when the product or the version holds a
    byte above 0xF4, such as 0xFF. *)
Theorem parse_update_decodes_fields file s :
  magic_ok file ->
  len file = declared_size file ->
  CrcSpec.crc16 0xFFFF 0 (payload file) = stored_checksum file ->
  (Forall (fun x => byte_val x <= 0x7F) (Py.rstrip xff (slice file 0x20 16)) ->
   Forall (fun x => byte_val x <= 0x7F) (version_of file) ->
   exists s',
     T3XUpdater.parse_update file s
     = (Return (Some (product_of file), Some (version_of file), len file), s'))
  /\ ((exists x, 0xF4 < byte_val x
                 /\ (In x (product_of file) \/ In x (version_of file))) ->
      exists s', T3XUpdater.parse_update file s = (Raise UnicodeDecodeError, s')).
Proof.
  intros Hm Hs Hc. rewrite <- crc16fn_bitwise in Hc.
  destruct (parse_update_valid file s Hm Hs Hc) as (s' & Hrun & _).
  split.
  - intros Hp Hv. exists s'. rewrite Hrun.
    rewrite (ascii_utf8_valid _ Hv).
    replace (Py.utf8_valid (product_of file)) with true; [reflexivity|].
    symmetry. apply ascii_utf8_valid. apply Forall_forall. intros x Hx.
    rewrite Forall_forall in Hp. apply Hp.
    unfold product_of in Hx.
    pose proof (split_not_nil "_"%byte (Py.rstrip xff (slice file 32 16))) as Hne.
    destruct (Py.split "_"%byte (Py.rstrip xff (slice file 32 16)))
      as [|f fs] eqn:E; [congruence|].
    apply (split_incl "_"%byte _ (last (f :: fs) [])); [|exact Hx].
    rewrite E. apply (@exists_last _ (f :: fs)) in Hne.
    destruct Hne as (l' & a & E'). rewrite E', last_last.
    apply in_or_app. right. left. reflexivity.
  - intros (x & Hx & Hin). exists s'. rewrite Hrun.
    replace (Py.utf8_valid (product_of file) && Py.utf8_valid (version_of file))
      with false; [reflexivity|].
    symmetry. apply andb_false_iff.
    destruct Hin as [Hin|Hin]; [left|right];
      (match goal with
       | |- Py.utf8_valid ?bs = false =>
           destruct (Py.utf8_valid bs) eqn:E; [|reflexivity];
           apply (utf8_valid_bytes _ bs (Nat.le_refl _)) in E;
           rewrite Forall_forall in E; specialize (E x Hin); lia
       end).
Qed.

Lemma parse_update_decodes_fields_witness :
  exists s',
    T3XUpdater.parse_update Sample.image_t3s (Sample.world [] [])
    = (Return (Some (product_of Sample.image_t3s),
               Some (version_of Sample.image_t3s), len Sample.image_t3s), s').
Proof.
  destruct (parse_update_decodes_fields Sample.image_t3s (Sample.world [] []))
    as [Hok _]; try (vm_compute; reflexivity).
  apply Hok.
  - vm_compute. repeat constructor; discriminate.
  - vm_compute. repeat constructor; discriminate.
Defined.
